(** * SOSO-Server: order intake routes and the scheduler report

    A shallow embedding of
      - [event_relay_api/routes/image_routes.py]: the order routes
        ([get_all_image_orders], [get_image_order], [create_order],
        [parse_image_type]);
      - [scheduler_service/tests/scheduler_report.py]: the plain-text report
        ([create_report], [print_request_breakdown]).

    Python exceptions are values of [exn]; a route handler is a computation
    [M W A] over the world [W] it reads and writes (database tables, the
    session's pending objects, the journal of commits and broker publishes).
    ORM queries are values of [Query.t], built generatively as SQLAlchemy's
    [Query] is: every builder returns a new query and leaves its argument
    alone. *)

From Stdlib Require Import ZArith List String Ascii Bool Lia DecimalString
  Permutation.
From Stdlib Require DecimalFacts DecimalNat.
Import ListNotations.
Open Scope string_scope.
Open Scope Z_scope.

(* ================================================================== *)
(** ** Python strings *)

(** Strings are sequences of ASCII characters: on those, [lower] and
    [capitalize] below are [str.lower] and [str.capitalize]. *)
Module PyStr.

Definition is_upper (c : ascii) : bool :=
  ((65 <=? nat_of_ascii c) && (nat_of_ascii c <=? 90))%nat.

Definition is_lower (c : ascii) : bool :=
  ((97 <=? nat_of_ascii c) && (nat_of_ascii c <=? 122))%nat.

Definition lower_char (c : ascii) : ascii :=
  if is_upper c then ascii_of_nat (nat_of_ascii c + 32) else c.

Definition upper_char (c : ascii) : ascii :=
  if is_lower c then ascii_of_nat (nat_of_ascii c - 32) else c.

(** [s.lower()] *)
Fixpoint lower (s : string) : string :=
  match s with
  | EmptyString => EmptyString
  | String c rest => String (lower_char c) (lower rest)
  end.

(** [s.capitalize()]: first character upper-cased, the rest lower-cased. *)
Definition capitalize (s : string) : string :=
  match s with
  | EmptyString => EmptyString
  | String c rest => String (upper_char c) (lower rest)
  end.

(** [str(n)] for a count. *)
Definition of_nat (n : nat) : string :=
  NilZero.string_of_uint (Nat.to_uint n).

(** [str(z)] for an integer. *)
Definition of_Z (z : Z) : string :=
  NilZero.string_of_int (Z.to_int z).

(** Lookup in a dict literal with string keys. *)
Fixpoint dict_get {V : Type} (d : list (string * V)) (k : string) : option V :=
  match d with
  | [] => None
  | (k', v) :: rest => if String.eqb k' k then Some v else dict_get rest k
  end.

End PyStr.

(* ================================================================== *)
(** ** Exceptions and handler computations *)

(** The exceptions the modelled code can raise. [HTTPException] is FastAPI's,
    with its status code and detail; [RequestValidationError] is what FastAPI
    raises when a declared constraint on a parameter ([ge=1]) fails;
    [DataError] is SQLAlchemy's, for a statement whose parameter the database
    rejects. *)
Inductive exn : Type :=
| TypeError
| AttributeError
| OverflowError
| ValueError
| KeyError (key : string)
| RequestValidationError
| HTTPException (status_code : Z) (detail : string)
| DataError.

(** The status FastAPI answers with: an [HTTPException] carries its own,
    a validation error is 422, anything else is unhandled and becomes 500. *)
Definition http_status (e : exn) : Z :=
  match e with
  | HTTPException code _ => code
  | RequestValidationError => 422
  | _ => 500
  end.

(** The spec's error taxonomy, read off the status: [ValidationError] (and its
    subtype [InvalidRecurrence]) is a 422, [NotFound] a 404. *)
Definition is_ValidationError (e : exn) : bool := http_status e =? 422.
Definition is_NotFound (e : exn) : bool := http_status e =? 404.

Inductive result (A : Type) : Type :=
| Ok (a : A)
| Raise (e : exn).
Arguments Ok {A} a.
Arguments Raise {A} e.

(** A computation over a world [W]: it returns or raises, and leaves a world.
    A raise keeps the effects that happened before it. *)
Definition M (W A : Type) : Type := W -> result A * W.

Definition ret {W A} (a : A) : M W A := fun w => (Ok a, w).

Definition raise {W A} (e : exn) : M W A := fun w => (Raise e, w).

Definition bind {W A B} (c : M W A) (k : A -> M W B) : M W B :=
  fun w =>
    match c w with
    | (Ok a, w') => k a w'
    | (Raise e, w') => (Raise e, w')
    end.

(** A pure step that may raise. *)
Definition lift {W A} (r : result A) : M W A := fun w => (r, w).

Declare Scope py_scope.
Delimit Scope py_scope with py.
Notation "x <- c ;; k" := (bind c (fun x => k))
  (at level 61, c at next level, right associativity) : py_scope.
Notation "c ;;; k" := (bind c (fun _ => k))
  (at level 61, right associativity) : py_scope.
Open Scope py_scope.

(* ================================================================== *)
(** ** [datetime.timedelta] *)

Module Timedelta.

(** A timedelta is its total number of microseconds. *)
Record t : Type := mk { microseconds : Z }.

Definition MAX_DELTA_DAYS : Z := 999999999.
Definition US_PER_DAY : Z := 86400000000.

(** The keyword arguments of [timedelta], with their size in microseconds. *)
Definition keywords : list (string * Z) :=
  [ ("days", 86400000000);
    ("seconds", 1000000);
    ("microseconds", 1);
    ("milliseconds", 1000);
    ("minutes", 60000000);
    ("hours", 3600000000);
    ("weeks", 604800000000) ].

Definition is_keyword (unit : string) : bool :=
  match PyStr.dict_get keywords unit with
  | Some _ => true
  | None => false
  end.

(** [timedelta] called with the one keyword [unit], given [amount]: a
    [TypeError] for a keyword that [timedelta] does not have and for an
    amount that is [None]; an [OverflowError] when the day count leaves
    [-999999999, 999999999]. *)
Definition of_keyword (unit : string) (amount : option Z) : result t :=
  match PyStr.dict_get keywords unit with
  | None => Raise TypeError
  | Some size =>
      match amount with
      | None => Raise TypeError
      | Some n =>
          let days := (n * size) / US_PER_DAY in
          if (- MAX_DELTA_DAYS <=? days) && (days <=? MAX_DELTA_DAYS)
          then Ok (mk (n * size))
          else Raise OverflowError
      end
  end.

End Timedelta.

(* ================================================================== *)
(** ** SQLAlchemy queries *)

Module Query.

(** A query over the rows of a table: the filtered rows, and the LIMIT and
    OFFSET clauses that have been attached. *)
Record t (row : Type) : Type := mk {
  rows : list row;
  limit_clause : option Z;
  offset_clause : option Z
}.
Arguments mk {row} _ _ _.
Arguments rows {row} _.
Arguments limit_clause {row} _.
Arguments offset_clause {row} _.

Section Builders.
Context {row : Type}.

(** [session.query(Table)] *)
Definition query (table : list row) : t row := mk table None None.

(** [q.filter(...)], [q.filter_by(...)]: a new query. *)
Definition filter (p : row -> bool) (q : t row) : t row :=
  mk (List.filter p (rows q)) (limit_clause q) (offset_clause q).

(** [q.limit(n)]: a new query; [q] is not modified. *)
Definition limit (n : Z) (q : t row) : t row :=
  mk (rows q) (Some n) (offset_clause q).

(** [q.offset(n)]: a new query; [q] is not modified. *)
Definition offset (n : Z) (q : t row) : t row :=
  mk (rows q) (limit_clause q) (Some n).

(** [q.all()] *)
Definition all (q : t row) : list row :=
  let skipped :=
    match offset_clause q with
    | Some n => skipn (Z.to_nat n) (rows q)
    | None => rows q
    end in
  match limit_clause q with
  | Some n => firstn (Z.to_nat n) skipped
  | None => skipped
  end.

(** [q.first()] *)
Definition first (q : t row) : option row :=
  List.hd_error (all (limit 1 q)).

(** [q.count()] *)
Definition count (q : t row) : nat := List.length (all q).

End Builders.

End Query.

(* ================================================================== *)
(** ** Request and database models *)

(** [ImageRequest.Recurrence] of the request body. [RevisitFrequency] and
    [RevisitFrequencyUnits] may be absent ([None]). *)
Record RecurrenceModel : Type := {
  Revisit : string;
  NumberOfRevisits : Z;
  RevisitFrequency : option Z;
  RevisitFrequencyUnits : option string
}.

(** A row of the schedule-request table, with the columns the routes and the
    report read. [status_message] is nullable. *)
Record ScheduleRequest : Type := {
  request_id : Z;
  request_order_id : Z;
  request_order_type : string;
  status : string;
  status_message : option string
}.

(** What a handler does to the outside, in the order it does it. *)
Inductive effect : Type :=
| Committed (ids : list (option Z))
| Published (topic : string) (body : option Z).

Section EventRelayApi.

(** [float] is the type of the coordinates, [datetime] of parsed
    timestamps; both are carried unchanged from the request to the row. *)
Context {float datetime : Type}.

(** [datetime.fromisoformat]; [None] is its [ValueError]. *)
Variable fromisoformat : string -> option datetime.

(** The validated request body ([ImageRequest]). *)
Record ImageRequest : Type := {
  Latitude : float;
  Longitude : float;
  Priority : Z;
  ImageType : string;
  ImageStartTime : string;
  ImageEndTime : string;
  DeliveryTime : string;
  Recurrence : RecurrenceModel
}.

(** An [ImageOrder] object: the keyword arguments of its constructor, and
    the primary key [id], which is [None] until the object is inserted. *)
Record ImageOrder : Type := {
  id : option Z;
  latitude : float;
  longitude : float;
  priority : Z;
  image_type : string;
  start_time : datetime;
  end_time : datetime;
  delivery_deadline : datetime;
  number_of_visits : Z;
  revisit_frequency : option Timedelta.t
}.

(** [ImageOrder.order_type]: an attribute of the mapped class that the
    constructor call does not set; the mapping (in
    [app_config.database.mapping]) defines it. *)
Variable order_type : ImageOrder -> string.

Definition with_id (i : Z) (o : ImageOrder) : ImageOrder :=
  {| id := Some i;
     latitude := latitude o;
     longitude := longitude o;
     priority := priority o;
     image_type := image_type o;
     start_time := start_time o;
     end_time := end_time o;
     delivery_deadline := delivery_deadline o;
     number_of_visits := number_of_visits o;
     revisit_frequency := revisit_frequency o |}.

(** The world of the order routes: the image-order table with the sequence
    that generates its keys, the rows the schedule-request helper query
    ranges over, the objects added to the session and not yet committed,
    and the journal of commits and publishes. *)
Record World : Type := {
  image_order_table : list ImageOrder;
  image_order_id_seq : Z;
  exposed_schedule_requests : list ScheduleRequest;
  session_new : list ImageOrder;
  journal : list effect
}.

(** [session.query(ImageOrder)] *)
Definition query_ImageOrder : M World (Query.t ImageOrder) :=
  fun w => (Ok (Query.query (image_order_table w)), w).

(** [create_exposed_schedule_requests_query()] *)
Definition create_exposed_schedule_requests_query
  : M World (Query.t ScheduleRequest) :=
  fun w => (Ok (Query.query (exposed_schedule_requests w)), w).

(** [session.add(o)] *)
Definition session_add (o : ImageOrder) : M World unit :=
  fun w =>
    (Ok tt,
     {| image_order_table := image_order_table w;
        image_order_id_seq := image_order_id_seq w;
        exposed_schedule_requests := exposed_schedule_requests w;
        session_new := session_new w ++ [o];
        journal := journal w |}).

(** INSERT the objects in the order they were added, each with the next
    value of the sequence as its key. *)
Fixpoint insert_all (next : Z) (objs : list ImageOrder) : list ImageOrder :=
  match objs with
  | [] => []
  | o :: rest => with_id next o :: insert_all (next + 1) rest
  end.

(** [session.commit()]: the pending objects become rows. The ORM refreshes
    the Python objects in place; here the refreshed objects are returned,
    in the order they were added. *)
Definition session_commit : M World (list ImageOrder) :=
  fun w =>
    let inserted := insert_all (image_order_id_seq w) (session_new w) in
    (Ok inserted,
     {| image_order_table := image_order_table w ++ inserted;
        image_order_id_seq :=
          image_order_id_seq w + Z.of_nat (List.length inserted);
        exposed_schedule_requests := exposed_schedule_requests w;
        session_new := [];
        journal := journal w ++ [Committed (map id inserted)] |}).

(** [TopicPublisher(rabbit(), topic).publish_message(body)] *)
Definition publish_message (topic : string) (body : option Z) : M World unit :=
  fun w =>
    (Ok tt,
     {| image_order_table := image_order_table w;
        image_order_id_seq := image_order_id_seq w;
        exposed_schedule_requests := exposed_schedule_requests w;
        session_new := session_new w;
        journal := journal w ++ [Published topic body] |}).

(* ---------------------------------------------------------------- *)
(** *** The routes *)

(** The [ge=1] constraints declared on [page] and [per_page]. *)
Definition check_paging (page per_page : Z) : M World unit :=
  if (page <? 1) || (per_page <? 1) then raise RequestValidationError
  else ret tt.

Definition id_is (i : Z) (o : ImageOrder) : bool :=
  match id o with
  | Some j => j =? i
  | None => false
  end.

(** [GET /orders]. The query returned by [limit(...).offset(...)] is not
    bound to anything: [query] itself is what [all()] runs. *)
Definition get_all_image_orders (page per_page : Z) (all : bool)
  : M World (list ImageOrder) :=
  check_paging page per_page ;;;
  query <- query_ImageOrder ;;
  let _ :=
    if negb all
    then Some (Query.offset ((page - 1) * per_page)
                 (Query.limit per_page query))
    else None in
  ret (Query.all query).

Definition order_not_found : exn :=
  HTTPException 404 "Image order with id={id} does not exist.".

(** [GET /orders/{id}], for an integer key [id]. *)
Definition get_image_order (i : Z) : M World ImageOrder :=
  query <- query_ImageOrder ;;
  let image_order := Query.first (Query.filter (id_is i) query) in
  match image_order with
  | None => raise order_not_found
  | Some o => ret o
  end.

(** [GET /orders/{id}/requests]. Here the paginated query is bound back to
    [requests_query] before [all()] runs. [request_types] is [None] or a
    list; an empty list is falsy. *)
Definition get_image_order_requests
    (i : Z) (page per_page : Z) (all : bool)
    (request_types : option (list string))
  : M World (list ScheduleRequest) :=
  check_paging page per_page ;;;
  query <- query_ImageOrder ;;
  let image_order := Query.first (Query.filter (id_is i) query) in
  match image_order with
  | None => raise order_not_found
  | Some o =>
      exposed <- create_exposed_schedule_requests_query ;;
      let requests_query :=
        Query.filter
          (fun r => (request_order_id r =? i)
                    && String.eqb (request_order_type r) (order_type o))
          exposed in
      let requests_query :=
        match request_types with
        | Some (t :: ts) =>
            Query.filter
              (fun r =>
                 existsb (String.eqb (request_order_type r)) (t :: ts))
              requests_query
        | _ => requests_query
        end in
      let requests_query :=
        if negb all
        then Query.offset ((page - 1) * per_page)
               (Query.limit per_page requests_query)
        else requests_query in
      ret (Query.all requests_query)
  end.

(** [parse_image_type]: a lookup in the dict literal, a [KeyError] for a
    key it does not have. *)
Definition type_mappings : list (string * string) :=
  [ ("low", "low"); ("medium", "medium"); ("high", "spotlight") ].

Definition parse_image_type (request_image_type : string) : result string :=
  let key := PyStr.lower request_image_type in
  match PyStr.dict_get type_mappings key with
  | Some v => Ok v
  | None => Raise (KeyError key)
  end.

(** [x.lower()] of a value that may be [None]. *)
Definition lower_of (x : option string) : result string :=
  match x with
  | Some s => Ok (PyStr.lower s)
  | None => Raise AttributeError
  end.

Definition datetime_fromisoformat (s : string) : result datetime :=
  match fromisoformat s with
  | Some d => Ok d
  | None => Raise ValueError
  end.

(** [Recurrence.Revisit.lower()=="true"]: the order is to be repeated. *)
Definition repeat (r : RecurrenceModel) : bool :=
  String.eqb (PyStr.lower (Revisit r)) "true".

(** The recurrence branch of [create_order]. *)
Definition revisit_frequency_of (r : RecurrenceModel)
  : result (option Timedelta.t) :=
  if repeat r then
    let frequency_amount := RevisitFrequency r in
    match lower_of (RevisitFrequencyUnits r) with
    | Raise e => Raise e
    | Ok frequency_unit =>
        match Timedelta.of_keyword frequency_unit frequency_amount with
        | Raise e => Raise e
        | Ok d => Ok (Some d)
        end
    end
  else Ok None.

(** [POST /orders/create]. The keyword arguments of [ImageOrder(...)] are
    evaluated in the order they are written. After the commit,
    [image_order] is the refreshed object: the last one the session
    inserted. *)
Definition create_order (image_request : ImageRequest) : M World (option Z) :=
  let number_of_visits :=
    NumberOfRevisits (Recurrence image_request) + 1 in
  revisit_frequency <- lift (revisit_frequency_of (Recurrence image_request)) ;;
  image_type <- lift (parse_image_type (ImageType image_request)) ;;
  start_time <- lift (datetime_fromisoformat (ImageStartTime image_request)) ;;
  end_time <- lift (datetime_fromisoformat (ImageEndTime image_request)) ;;
  delivery_deadline <- lift (datetime_fromisoformat (DeliveryTime image_request)) ;;
  let image_order :=
    {| id := None;
       latitude := Latitude image_request;
       longitude := Longitude image_request;
       priority := Priority image_request;
       image_type := image_type;
       start_time := start_time;
       end_time := end_time;
       delivery_deadline := delivery_deadline;
       number_of_visits := number_of_visits;
       revisit_frequency := revisit_frequency |} in
  session_add image_order ;;;
  inserted <- session_commit ;;
  let image_order := List.last inserted image_order in
  publish_message ("order." ++ order_type image_order ++ ".created")
    (id image_order) ;;;
  ret (id image_order).

(** [w'] is [w] after a commit whose last inserted row is [o]. *)
Definition persists (w w' : World) (o : ImageOrder) : Prop :=
  image_order_table w'
  = (image_order_table w
       ++ insert_all (image_order_id_seq w) (session_new w) ++ [o])%list.

(** The row a successful [create_order] inserts for [req] in [w], given
    what its steps returned: the frequency [rf], the image type [it] and
    the parsed timestamps. Its key is the sequence value left after the
    objects already pending. *)
Definition row_of (req : ImageRequest) (w : World)
    (rf : option Timedelta.t) (it : string) (st en dl : datetime)
  : ImageOrder :=
  {| id := Some (image_order_id_seq w
                 + Z.of_nat (List.length (session_new w)));
     latitude := Latitude req;
     longitude := Longitude req;
     priority := Priority req;
     image_type := it;
     start_time := st;
     end_time := en;
     delivery_deadline := dl;
     number_of_visits := NumberOfRevisits (Recurrence req) + 1;
     revisit_frequency := rf |}.

End EventRelayApi.

(* ================================================================== *)
(** ** The scheduler report *)

Record Satellite : Type := {
  satellite_id : Z;
  satellite_name : string
}.

Record TransmittedEvent : Type := {
  event_id : Z;
  asset_id : Z;
  event_type : string
}.

Record GroundStation : Type := {
  groundstation_key : Z;
  groundstation_name : string
}.

(** [total_transmission_time] is a nullable number. *)
Record ContactEvent : Type := {
  contact_id : Z;
  groundstation_id : Z;
  total_transmission_time : option Z
}.

(** The tables the report reads. Of [SystemOrder] only the keys matter. *)
Record Database : Type := {
  system_order : list Z;
  schedule_request : list ScheduleRequest;
  satellite : list Satellite;
  transmitted_event : list TransmittedEvent;
  ground_station : list GroundStation;
  contact_event : list ContactEvent
}.

Section GroupBy.
Context {K : Type} (eqb : K -> K -> bool).

(** One more row for the group of [k]: its count goes up, or the group
    opens with a count of one. *)
Fixpoint bump (k : K) (groups : list (K * nat)) : list (K * nat) :=
  match groups with
  | [] => [(k, 1%nat)]
  | (k', n) :: rest =>
      if eqb k' k then (k', S n) :: rest else (k', n) :: bump k rest
  end.

(** [SELECT key, count(id) ... GROUP BY key], given the key of every row:
    one result row per distinct key (here in order of first occurrence),
    with the number of rows that have it. *)
Definition group_count (keys : list K) : list (K * nat) :=
  fold_left (fun groups k => bump k groups) keys [].

(** The number of rows with key [k]. *)
Definition occurrences (k : K) (keys : list K) : nat :=
  List.length (List.filter (eqb k) keys).

(** The count recorded for [k] in a list of groups, 0 when it has none. *)
Fixpoint tally_of (k : K) (groups : list (K * nat)) : nat :=
  match groups with
  | [] => 0%nat
  | (k', n) :: rest => if eqb k' k then n else tally_of k rest
  end.

End GroupBy.

(** Equality of nullable strings as GROUP BY sees it: NULLs fall in one
    group. *)
Definition reason_eqb (a b : option string) : bool :=
  match a, b with
  | Some x, Some y => String.eqb x y
  | None, None => true
  | _, _ => false
  end.

(** [reason or "Unspecified"] *)
Definition reason_or_unspecified (reason : option string) : string :=
  match reason with
  | None => "Unspecified"
  | Some "" => "Unspecified"
  | Some r => r
  end.

Definition newline : string := String (ascii_of_nat 10) "".

(** The status lines of [print_request_breakdown] and, under each, its
    reason lines; one string per [print] call. *)
Section RequestBreakdown.
Variable requests_subquery : list ScheduleRequest.
Variable indent : string.

Definition request_count_by_status : list (string * nat) :=
  group_count String.eqb (map status requests_subquery).

Definition breakdown_by_reason (request_status : string)
  : list (option string * nat) :=
  group_count reason_eqb
    (map status_message
       (Query.all
          (Query.filter (fun r => String.eqb (status r) request_status)
             (Query.query requests_subquery)))).

Definition status_line (request_status : string) (count : nat) : string :=
  indent ++ PyStr.capitalize request_status ++ " requests: "
    ++ PyStr.of_nat count.

Definition reason_line (reason : option string) (count : nat) : string :=
  indent ++ "  " ++ PyStr.of_nat count ++ ": "
    ++ reason_or_unspecified reason.

(** The lines printed under the status line of [request_status]. *)
Definition reason_lines (request_status : string) : list string :=
  let breakdown := breakdown_by_reason request_status in
  if (1 <? List.length breakdown)%nat
  then map (fun '(reason, count) => reason_line reason count) breakdown
  else [].

Definition print_request_breakdown : list string :=
  flat_map
    (fun '(request_status, count) =>
       status_line request_status count :: reason_lines request_status)
    request_count_by_status.

End RequestBreakdown.

Definition positive (x : option Z) : bool :=
  match x with
  | Some t => 0 <? t
  | None => false
  end.

(** The contact count of one ground station in [create_report]. *)
Definition total_contacts (contacts : list ContactEvent) (gs_id : Z) : nat :=
  Query.count
    (Query.filter
       (fun c => (groundstation_id c =? gs_id)
                 && positive (total_transmission_time c))
       (Query.query contacts)).

Definition contacts_line (contacts : list ContactEvent) (gs : GroundStation)
  : string :=
  groundstation_name gs ++ ": "
    ++ PyStr.of_nat (total_contacts contacts (groundstation_key gs))
    ++ " scheduled contacts".

(** [create_report]: everything it prints, one string per [print] call. *)
Definition create_report (db : Database) : list string :=
  let total_order_count := Query.count (Query.query (system_order db)) in
  let total_request_count := Query.count (Query.query (schedule_request db)) in
  let request_count_by_type :=
    group_count String.eqb (map request_order_type (schedule_request db)) in
  [ "===========Overall stats===========";
    "Total order count: " ++ PyStr.of_nat total_order_count;
    "Total request count: " ++ PyStr.of_nat total_request_count ]
  ++ print_request_breakdown (schedule_request db) "   "
  ++ [ newline ++ newline ++ "======Breakdown by order type======" ]
  ++ flat_map
       (fun '(order_type, count) =>
          ("Total " ++ PyStr.capitalize order_type ++ " request count: "
             ++ PyStr.of_nat count)
          :: print_request_breakdown
               (Query.all
                  (Query.filter
                     (fun r => String.eqb (request_order_type r) order_type)
                     (Query.query (schedule_request db))))
               "   ")
       request_count_by_type
  ++ [ newline ++ newline ++ "==========Scheduled Events=========" ++ newline;
       "------------Per satellite-----------" ]
  ++ flat_map
       (fun s =>
          let total_event_count :=
            Query.count
              (Query.filter (fun e => asset_id e =? satellite_id s)
                 (Query.query (transmitted_event db))) in
          (satellite_name s ++ ": " ++ PyStr.of_nat total_event_count
             ++ " events scheduled")
          :: map
               (fun '(event_type, count) =>
                  "   " ++ event_type ++ " events: " ++ PyStr.of_nat count)
               (group_count String.eqb
                  (map event_type
                     (Query.all
                        (Query.filter (fun e => asset_id e =? satellite_id s)
                           (Query.query (transmitted_event db)))))))
       (Query.all (Query.query (satellite db)))
  ++ [ newline ++ newline ++ "----------Per groundstation---------" ]
  ++ map (contacts_line (contact_event db))
       (Query.all (Query.query (ground_station db))).

(** The number of requests in [requests] whose status is [s]. *)
Definition count_in_status (requests : list ScheduleRequest) (s : string) : nat :=
  List.length (List.filter (fun r => String.eqb (status r) s) requests).

Definition reason_eq_dec (a b : option string) : {a = b} + {a <> b}.
Proof. decide equality. apply string_dec. Defined.

(** The number of distinct status messages (NULL being one of them) among the
    requests in status [s]. *)
Definition distinct_reasons (requests : list ScheduleRequest) (s : string) : nat :=
  List.length
    (nodup reason_eq_dec
       (map status_message
          (List.filter (fun r => String.eqb (status r) s) requests))).


(* ================================================================== *)
(** ** Concrete data for runs of the model *)

Module Sample.

Record datetime : Type := mk_datetime {
  year : Z; month : Z; day : Z; hour : Z; minute : Z; second : Z
}.

Definition digit (c : ascii) : option Z :=
  let n := nat_of_ascii c in
  if ((48 <=? n) && (n <=? 57))%nat then Some (Z.of_nat n - 48) else None.

Definition two_digits (a b : ascii) : option Z :=
  match digit a, digit b with
  | Some x, Some y => Some (10 * x + y)
  | _, _ => None
  end.

Definition is_leap (y : Z) : bool :=
  ((y mod 4 =? 0) && negb (y mod 100 =? 0)) || (y mod 400 =? 0).

Definition days_in_month (y m : Z) : Z :=
  if m =? 2 then (if is_leap y then 29 else 28)
  else if existsb (Z.eqb m) [4; 6; 9; 11] then 30 else 31.

(** [datetime.fromisoformat] on timestamps written [YYYY-MM-DDTHH:MM:SS],
    the only ones the runs below use. *)
Definition fromisoformat (s : string) : option datetime :=
  match list_ascii_of_string s with
  | [y1; y2; y3; y4; "-"; m1; m2; "-"; d1; d2; "T";
     h1; h2; ":"; n1; n2; ":"; s1; s2]%char =>
      match two_digits y1 y2, two_digits y3 y4, two_digits m1 m2,
            two_digits d1 d2, two_digits h1 h2, two_digits n1 n2,
            two_digits s1 s2 with
      | Some yh, Some yl, Some mo, Some d, Some h, Some mi, Some se =>
          let y := 100 * yh + yl in
          if (1 <=? y) && (1 <=? mo) && (mo <=? 12)
             && (1 <=? d) && (d <=? days_in_month y mo)
             && (h <=? 23) && (mi <=? 59) && (se <=? 59)
          then Some (mk_datetime y mo d h mi se)
          else None
      | _, _, _, _, _, _, _ => None
      end
  | _ => None
  end.

(** Coordinates in whole degrees. *)
Definition float : Type := Z.

Definition Order : Type := @ImageOrder float datetime.
Definition Request : Type := @ImageRequest float.
Definition DB : Type := @World float datetime.

(** A mapping under which every image order has the order type
    ["imaging"]. *)
Definition order_type (o : Order) : string := "imaging".

Definition empty : DB :=
  {| image_order_table := [];
     image_order_id_seq := 1;
     exposed_schedule_requests := [];
     session_new := [];
     journal := [] |}.

Definition request (image_type : string) (r : RecurrenceModel) : Request :=
  {| Latitude := 10; Longitude := 20; Priority := 1;
     ImageType := image_type;
     ImageStartTime := "2024-03-01T10:00:00";
     ImageEndTime := "2024-03-01T11:00:00";
     DeliveryTime := "2024-03-01T12:00:00";
     Recurrence := r |}.

Definition no_repeat (revisits : Z) : RecurrenceModel :=
  {| Revisit := "false"; NumberOfRevisits := revisits;
     RevisitFrequency := None; RevisitFrequencyUnits := None |}.

Definition every (amount : option Z) (unit : option string) (revisits : Z)
  : RecurrenceModel :=
  {| Revisit := "True"; NumberOfRevisits := revisits;
     RevisitFrequency := amount; RevisitFrequencyUnits := unit |}.

Definition T0 : datetime := mk_datetime 2024 3 1 10 0 0.
Definition T1 : datetime := mk_datetime 2024 3 1 11 0 0.
Definition T2 : datetime := mk_datetime 2024 3 1 12 0 0.

Definition order (i : Z) (type : string) (visits : Z)
    (frequency : option Timedelta.t) : Order :=
  {| id := Some i; latitude := 10; longitude := 20; priority := 1;
     image_type := type; start_time := T0; end_time := T1;
     delivery_deadline := T2; number_of_visits := visits;
     revisit_frequency := frequency |}.

(** A store with three orders. *)
Definition three_orders : DB :=
  {| image_order_table :=
       [ order 1 "low" 1 None; order 2 "medium" 1 None;
         order 3 "spotlight" 1 None ];
     image_order_id_seq := 4;
     exposed_schedule_requests := [];
     session_new := [];
     journal := [] |}.

Definition req (i : Z) (s : string) (m : option string) : ScheduleRequest :=
  {| request_id := i; request_order_id := 1;
     request_order_type := "imaging"; status := s; status_message := m |}.

(** Two pending, three scheduled, one rejected. *)
Definition six_requests : list ScheduleRequest :=
  [ req 1 "pending" None; req 2 "scheduled" (Some "GS-3 pass #1102");
    req 3 "scheduled" (Some "GS-1 pass #7"); req 4 "rejected" (Some "conflict");
    req 5 "pending" None; req 6 "scheduled" (Some "GS-3 pass #1102") ].

Definition contact (i gs : Z) (t : option Z) : ContactEvent :=
  {| contact_id := i; groundstation_id := gs; total_transmission_time := t |}.

Definition contacts : list ContactEvent :=
  [ contact 1 7 (Some 120); contact 2 7 (Some 0); contact 3 8 (Some 30);
    contact 4 7 None; contact 5 7 (Some 45) ].

(** A run of [create_order] on the empty store, and the world it leaves. *)
Definition run (r : Request) : result (option Z) * DB :=
  create_order fromisoformat order_type r empty.

Definition after (r : Request) : DB := snd (run r).

(** High quality, every day, two revisits. *)
Definition daily_high : Request :=
  request "high" (every (Some 1) (Some "days") 2).

(** High quality, not repeated, yet with a revisit count of two. *)
Definition single_high : Request := request "high" (no_repeat 2).

(** Repeated every thirty seconds. *)
Definition every_30_seconds : Request :=
  request "low" (every (Some 30) (Some "seconds") 1).

(** Repeated with a unit that [timedelta] does not have. *)
Definition fortnightly : Request :=
  request "low" (every (Some 1) (Some "fortnights") 1).

(** An image type outside the mapping, with a well-formed recurrence and
    with the unit that [timedelta] does not have. *)
Definition ultra_daily : Request :=
  request "Ultra" (every (Some 1) (Some "days") 1).

Definition ultra_fortnightly : Request :=
  request "Ultra" (every (Some 1) (Some "fortnights") 1).

Definition stations : list GroundStation :=
  [ {| groundstation_key := 7; groundstation_name := "Inuvik" |};
    {| groundstation_key := 8; groundstation_name := "Prince Albert" |} ].

Definition report_db : Database :=
  {| system_order := [1];
     schedule_request := six_requests;
     satellite := [];
     transmitted_event := [];
     ground_station := stations;
     contact_event := contacts |}.

End Sample.

(* ================================================================== *)
(** ** Store invariants, derived requests and report counts *)

Section Stores.
Context {float datetime : Type}.

(** The image-order table as the database keeps it: every row has a key, no
    two rows share one, and every key is below the next value of the
    sequence. *)
Definition well_formed (w : @World float datetime) : Prop :=
  NoDup (map id (image_order_table w))
  /\ forall o, In o (image_order_table w) ->
       exists i, id o = Some i /\ i < image_order_id_seq w.

(** [req] with its revisit frequency and unit replaced. *)
Definition set_frequency (amount : option Z) (unit : option string)
    (req : @ImageRequest float) : @ImageRequest float :=
  {| Latitude := Latitude req;
     Longitude := Longitude req;
     Priority := Priority req;
     ImageType := ImageType req;
     ImageStartTime := ImageStartTime req;
     ImageEndTime := ImageEndTime req;
     DeliveryTime := DeliveryTime req;
     Recurrence :=
       {| Revisit := Revisit (Recurrence req);
          NumberOfRevisits := NumberOfRevisits (Recurrence req);
          RevisitFrequency := amount;
          RevisitFrequencyUnits := unit |} |}.

(** [req] with its repeat flag, its unit and its image type in lower case. *)
Definition lowercased (req : @ImageRequest float) : @ImageRequest float :=
  {| Latitude := Latitude req;
     Longitude := Longitude req;
     Priority := Priority req;
     ImageType := PyStr.lower (ImageType req);
     ImageStartTime := ImageStartTime req;
     ImageEndTime := ImageEndTime req;
     DeliveryTime := DeliveryTime req;
     Recurrence :=
       {| Revisit := PyStr.lower (Revisit (Recurrence req));
          NumberOfRevisits := NumberOfRevisits (Recurrence req);
          RevisitFrequency := RevisitFrequency (Recurrence req);
          RevisitFrequencyUnits :=
            option_map PyStr.lower (RevisitFrequencyUnits (Recurrence req)) |}
  |}.

End Stores.

Section PathParameter.
Context {float datetime : Type}.

(** How the database reads a text parameter that is compared with the
    integer key column: the key it denotes, or [None] when the database
    rejects the text (PostgreSQL: invalid input syntax for type integer, or a
    value out of range). *)
Variable key_of_text : string -> option Z.

(** [GET /orders/{id}] as the route receives it. Line 31 declares [id]
    without a type (the sibling route on line 39 declares [id: int]), so the
    path segment arrives as text and [filter_by(id=id)] hands that text to
    the database. A text the database rejects makes the query raise
    [DataError], which nothing handles; a text it reads as a key is looked up
    as [get_image_order] does. *)
Definition get_image_order_by_path (path_id : string)
  : M (@World float datetime) (@ImageOrder float datetime) :=
  match key_of_text path_id with
  | None => raise DataError
  | Some i => get_image_order i
  end.

End PathParameter.

(** The largest LIMIT and OFFSET the database takes (a bigint). *)
Definition BIGINT_MAX : Z := 9223372036854775807.


(** The requests of order type [t]. *)
Definition requests_of_type (requests : list ScheduleRequest) (t : string)
  : list ScheduleRequest :=
  List.filter (fun r => String.eqb (request_order_type r) t) requests.

(** The transmitted events of the satellite with key [sat]. *)
Definition events_of (events : list TransmittedEvent) (sat : Z)
  : list TransmittedEvent :=
  List.filter (fun e => asset_id e =? sat) events.

(** The number of requests in status [s] whose message is [m]. *)
Definition count_with_reason (requests : list ScheduleRequest) (s : string)
    (m : option string) : nat :=
  List.length
    (List.filter
       (fun r => String.eqb (status r) s && reason_eqb (status_message r) m)
       requests).

Module Cases.

Fixpoint decimal (acc : Z) (s : string) : option Z :=
  match s with
  | EmptyString => Some acc
  | String c rest =>
      match Sample.digit c with
      | Some d => decimal (10 * acc + d) rest
      | None => None
      end
  end.

(** A database that reads unsigned decimal keys up to 2147483647, as the
    texts of the runs below are read by PostgreSQL, and rejects every other
    text. *)
Definition key_of_text (s : string) : option Z :=
  match s with
  | EmptyString => None
  | _ =>
      match decimal 0 s with
      | Some v => if v <=? 2147483647 then Some v else None
      | None => None
      end
  end.

(** The end of the window is not a timestamp. *)
Definition bad_end : Sample.Request :=
  {| Latitude := 10; Longitude := 20; Priority := 1;
     ImageType := "low";
     ImageStartTime := "2024-03-01T10:00:00";
     ImageEndTime := "tomorrow";
     DeliveryTime := "2024-03-01T12:00:00";
     Recurrence := Sample.no_repeat 0 |}.

(** Repeated every thousand million days. *)
Definition too_long : Sample.Request :=
  Sample.request "low" (Sample.every (Some 1000000000) (Some "days") 1).

(** Upper-case flag, unit and image type. *)
Definition shouting : Sample.Request :=
  Sample.request "MEDIUM"
    {| Revisit := "TRUE"; NumberOfRevisits := 1;
       RevisitFrequency := Some 2; RevisitFrequencyUnits := Some "Weeks" |}.

(** A store with three orders and requests of the first two. *)
Definition with_requests : Sample.DB :=
  {| image_order_table := image_order_table Sample.three_orders;
     image_order_id_seq := 4;
     exposed_schedule_requests :=
       [ {| request_id := 1; request_order_id := 1;
            request_order_type := "imaging"; status := "pending";
            status_message := None |};
         {| request_id := 2; request_order_id := 2;
            request_order_type := "imaging"; status := "pending";
            status_message := None |};
         {| request_id := 3; request_order_id := 1;
            request_order_type := "imaging"; status := "scheduled";
            status_message := None |};
         {| request_id := 4; request_order_id := 1;
            request_order_type := "maintenance"; status := "pending";
            status_message := None |} ];
     session_new := [];
     journal := [] |}.

(** Requests of two order types; in status rejected one has no message and
    one an empty message. *)
Definition mixed_requests : list ScheduleRequest :=
  [ {| request_id := 1; request_order_id := 1;
       request_order_type := "imaging"; status := "rejected";
       status_message := None |};
    {| request_id := 2; request_order_id := 1;
       request_order_type := "imaging"; status := "rejected";
       status_message := Some "" |};
    {| request_id := 3; request_order_id := 2;
       request_order_type := "maintenance"; status := "pending";
       status_message := None |} ].

Definition satellites : list Satellite :=
  [ {| satellite_id := 1; satellite_name := "SOSO-1" |};
    {| satellite_id := 2; satellite_name := "SOSO-2" |} ].

Definition events : list TransmittedEvent :=
  [ {| event_id := 1; asset_id := 1; event_type := "imaging" |};
    {| event_id := 2; asset_id := 1; event_type := "contact" |};
    {| event_id := 3; asset_id := 1; event_type := "imaging" |} ].

Definition report_db : Database :=
  {| system_order := [1; 2];
     schedule_request := mixed_requests;
     satellite := satellites;
     transmitted_event := events;
     ground_station := [];
     contact_event := [] |}.

(** The three-order store after one more order, and the empty store after
    two. *)
Definition added : Sample.DB :=
  snd (create_order Sample.fromisoformat Sample.order_type Sample.daily_high
         Sample.three_orders).

Definition second : Sample.DB :=
  snd (create_order Sample.fromisoformat Sample.order_type Sample.single_high
         (Sample.after Sample.daily_high)).

End Cases.

(* ================================================================== *)
(** ** Facts about the order routes *)

Section RouteFacts.
Context {float datetime : Type}.
Variable fromisoformat : string -> option datetime.
Variable order_type : @ImageOrder float datetime -> string.

Lemma insert_all_snoc (objs : list (@ImageOrder float datetime)) o next :
  insert_all next (objs ++ [o])
  = (insert_all next objs
       ++ [with_id (next + Z.of_nat (List.length objs)) o])%list.
Proof.
  revert next; induction objs as [|x objs IH]; intros next;
    cbn [insert_all app List.length].
  - now rewrite Z.add_0_r.
  - rewrite IH. cbn [app]. do 4 f_equal. lia.
Qed.

(** What a successful [create_order] has done. *)
Lemma create_order_ok req w w' r :
  create_order fromisoformat order_type req w = (Ok r, w') ->
  exists rf it st en dl,
    revisit_frequency_of (Recurrence req) = Ok rf
    /\ parse_image_type (ImageType req) = Ok it
    /\ fromisoformat (ImageStartTime req) = Some st
    /\ fromisoformat (ImageEndTime req) = Some en
    /\ fromisoformat (DeliveryTime req) = Some dl
    /\ r = id (row_of req w rf it st en dl)
    /\ persists w w' (row_of req w rf it st en dl)
    /\ journal w'
       = (journal w
          ++ [ Committed
                 (map id (insert_all (image_order_id_seq w) (session_new w))
                  ++ [r]);
               Published
                 ("order." ++ order_type (row_of req w rf it st en dl)
                    ++ ".created") r ])%list.
Proof.
  unfold create_order, bind, lift, datetime_fromisoformat.
  destruct (revisit_frequency_of (Recurrence req)) as [rf|]; [|discriminate].
  destruct (parse_image_type (ImageType req)) as [it|]; [|discriminate].
  destruct (fromisoformat (ImageStartTime req)) as [st|]; [|discriminate].
  destruct (fromisoformat (ImageEndTime req)) as [en|]; [|discriminate].
  destruct (fromisoformat (DeliveryTime req)) as [dl|]; [|discriminate].
  cbn [session_add session_commit publish_message ret
       image_order_table image_order_id_seq session_new journal
       exposed_schedule_requests].
  rewrite insert_all_snoc, last_last.
  intros H; injection H as Hr Hw; subst r w'.
  exists rf, it, st, en, dl. unfold persists, row_of.
  cbn [image_order_table journal with_id id latitude longitude priority
       image_type start_time end_time delivery_deadline number_of_visits
       revisit_frequency].
  repeat split; try reflexivity.
  rewrite <- app_assoc, map_app. reflexivity.
Qed.

(** Every raise of [create_order] comes before its first effect. *)
Lemma create_order_raise req w w' e :
  create_order fromisoformat order_type req w = (Raise e, w') -> w' = w.
Proof.
  unfold create_order, bind, lift, datetime_fromisoformat.
  destruct (revisit_frequency_of (Recurrence req)) as [rf|]; [|congruence].
  destruct (parse_image_type (ImageType req)) as [it|]; [|congruence].
  destruct (fromisoformat (ImageStartTime req)) as [st|]; [|congruence].
  destruct (fromisoformat (ImageEndTime req)) as [en|]; [|congruence].
  destruct (fromisoformat (DeliveryTime req)) as [dl|]; [|congruence].
  cbn. discriminate.
Qed.

Lemma revisit_frequency_of_ok r rf :
  revisit_frequency_of r = Ok rf ->
  (rf <> None <-> repeat r = true).
Proof.
  unfold revisit_frequency_of.
  destruct (repeat r).
  - destruct (lower_of _); [|discriminate].
    destruct (Timedelta.of_keyword _ _); [|discriminate].
    intros [= <-]. split; [reflexivity | discriminate].
  - intros [= <-]. split; [congruence | discriminate].
Qed.

Lemma of_keyword_raise unit amount e :
  Timedelta.of_keyword unit amount = Raise e ->
  e = TypeError \/ e = OverflowError.
Proof.
  unfold Timedelta.of_keyword.
  destruct (PyStr.dict_get _ _); [|intros [= <-]; now left].
  destruct amount; [|intros [= <-]; now left].
  destruct (_ && _); [discriminate | intros [= <-]; now right].
Qed.

(** The recurrence branch raises nothing but these three. *)
Lemma revisit_frequency_of_raise r e :
  revisit_frequency_of r = Raise e ->
  e = TypeError \/ e = AttributeError \/ e = OverflowError.
Proof.
  unfold revisit_frequency_of, lower_of.
  destruct (repeat r); [|discriminate].
  destruct (RevisitFrequencyUnits r) as [u|]; [|intros [= <-]; auto].
  destruct (Timedelta.of_keyword _ _) eqn:E; [discriminate|].
  intros [= <-]. destruct (of_keyword_raise _ _ _ E); auto.
Qed.

Lemma create_order_recurrence_raise req w e :
  revisit_frequency_of (Recurrence req) = Raise e ->
  create_order fromisoformat order_type req w = (Raise e, w).
Proof.
  intros H. unfold create_order, bind, lift. now rewrite H.
Qed.

Lemma create_order_image_type_raise req w rf e :
  revisit_frequency_of (Recurrence req) = Ok rf ->
  parse_image_type (ImageType req) = Raise e ->
  create_order fromisoformat order_type req w = (Raise e, w).
Proof.
  intros H1 H2. unfold create_order, bind, lift. now rewrite H1, H2.
Qed.

(** Whatever [page], [per_page] and [all] are, a call that passes the
    parameter check answers with the whole table. *)
Lemma get_all_image_orders_whole_table page per_page all
    (w : @World float datetime) :
  1 <= page -> 1 <= per_page ->
  get_all_image_orders page per_page all w = (Ok (image_order_table w), w).
Proof.
  intros Hp Hq. unfold get_all_image_orders, check_paging, bind.
  destruct (page <? 1) eqn:E1; [apply Z.ltb_lt in E1; lia|].
  destruct (per_page <? 1) eqn:E2; [apply Z.ltb_lt in E2; lia|].
  reflexivity.
Qed.

(** The sibling route does paginate: without [all] and without a type
    filter it answers with one page of the order's requests. *)
Lemma get_image_order_requests_one_page i page per_page o
    (w : @World float datetime) :
  1 <= page -> 1 <= per_page ->
  Query.first (Query.filter (id_is i) (Query.query (image_order_table w)))
  = Some o ->
  get_image_order_requests order_type i page per_page false None w
  = (Ok (firstn (Z.to_nat per_page)
           (skipn (Z.to_nat ((page - 1) * per_page))
              (List.filter
                 (fun r => (request_order_id r =? i)
                           && String.eqb (request_order_type r)
                                (order_type o))
                 (exposed_schedule_requests w)))), w).
Proof.
  intros Hp Hq Ho. unfold get_image_order_requests, check_paging, bind.
  destruct (page <? 1) eqn:E1; [apply Z.ltb_lt in E1; lia|].
  destruct (per_page <? 1) eqn:E2; [apply Z.ltb_lt in E2; lia|].
  cbn [orb ret query_ImageOrder]. rewrite Ho. reflexivity.
Qed.

End RouteFacts.

(* ================================================================== *)
(** ** The order routes: what is stored, published and answered *)

Section RouteClaims.
Context {float datetime : Type}.
Variable fromisoformat : string -> option datetime.
Variable order_type : @ImageOrder float datetime -> string.

(** C1 (as amended): for every order persisted by [create_order], the
    stored [number_of_visits] is the revisit count plus one, whether the
    order repeats or not, so it is 1 exactly when the revisit count is 0;
    the stored window is the order window: [start_time] and [end_time] are
    the parsed [ImageStartTime] and [ImageEndTime] of the request. *)
Theorem create_order_number_of_visits req w w' r :
  create_order fromisoformat order_type req w = (Ok r, w') ->
  exists o,
    persists w w' o /\ id o = r
    /\ number_of_visits o = NumberOfRevisits (Recurrence req) + 1
    /\ (number_of_visits o = 1 <-> NumberOfRevisits (Recurrence req) = 0)
    /\ fromisoformat (ImageStartTime req) = Some (start_time o)
    /\ fromisoformat (ImageEndTime req) = Some (end_time o).
Proof.
  intros H.
  destruct (create_order_ok _ _ _ _ _ _ H)
    as (rf & it & st & en & dl & _ & _ & Hst & Hen & _ & Hr & Hp & _).
  exists (row_of req w rf it st en dl).
  cbn [row_of number_of_visits start_time end_time].
  repeat split; auto; lia.
Qed.

(** C2 (as amended): for every submission with repeat true whose revisit
    frequency or unit is absent, or whose lower-cased unit is not a keyword
    of [timedelta] (days, seconds, microseconds, milliseconds, minutes,
    hours, weeks), [create_order] raises an unhandled [TypeError] or
    [AttributeError], which is not a ValidationError, and the world is
    left as it was: no order is persisted. *)
Theorem create_order_malformed_recurrence req w :
  repeat (Recurrence req) = true ->
  (RevisitFrequency (Recurrence req) = None
   \/ RevisitFrequencyUnits (Recurrence req) = None
   \/ exists u, RevisitFrequencyUnits (Recurrence req) = Some u
                /\ Timedelta.is_keyword (PyStr.lower u) = false) ->
  exists e,
    create_order fromisoformat order_type req w = (Raise e, w)
    /\ (e = TypeError \/ e = AttributeError)
    /\ is_ValidationError e = false.
Proof.
  intros Hrep Hbad.
  assert (exists e, revisit_frequency_of (Recurrence req) = Raise e
                    /\ (e = TypeError \/ e = AttributeError)) as (e & He & Hk).
  { unfold revisit_frequency_of, lower_of, Timedelta.of_keyword. rewrite Hrep.
    destruct (RevisitFrequencyUnits (Recurrence req)) as [u|] eqn:Eu.
    - destruct Hbad as [Hf | [Hu | (u' & Hu & Hkw)]].
      + rewrite Hf. exists TypeError.
        destruct (PyStr.dict_get _ _); auto.
      + discriminate.
      + injection Hu as <-. unfold Timedelta.is_keyword in Hkw.
        destruct (PyStr.dict_get _ _); [discriminate|].
        exists TypeError; auto.
    - exists AttributeError; auto. }
  exists e. split; [now apply create_order_recurrence_raise|].
  split; [assumption|]. destruct Hk as [-> | ->]; reflexivity.
Qed.

(** C4 (as amended): every successful [create_order] call extends the
    journal by exactly two entries, in this order: the commit that inserts
    the new order, then one message on topic [order.<order_type>.created]
    whose body is the new order's id, where <order_type> is the
    [order_type] attribute of the persisted order; it returns that id. *)
Theorem create_order_publishes req w w' r :
  create_order fromisoformat order_type req w = (Ok r, w') ->
  exists o i,
    persists w w' o /\ id o = Some i /\ r = Some i
    /\ journal w'
       = (journal w
          ++ [ Committed
                 (map id (insert_all (image_order_id_seq w) (session_new w))
                  ++ [Some i]);
               Published ("order." ++ order_type o ++ ".created")
                 (Some i) ])%list.
Proof.
  intros H.
  destruct (create_order_ok _ _ _ _ _ _ H)
    as (rf & it & st & en & dl & _ & _ & _ & _ & _ & Hr & Hp & Hj).
  exists (row_of req w rf it st en dl),
    (image_order_id_seq w + Z.of_nat (List.length (session_new w))).
  rewrite Hj, Hr. cbn [row_of id]. auto.
Qed.

(** C7: for every order persisted by [create_order], the stored
    [revisit_frequency] is non-null if and only if the repeat flag of the
    submission is true; when the flag is false it is null. *)
Theorem create_order_revisit_frequency req w w' r :
  create_order fromisoformat order_type req w = (Ok r, w') ->
  exists o,
    persists w w' o /\ id o = r
    /\ (revisit_frequency o <> None <-> repeat (Recurrence req) = true)
    /\ (repeat (Recurrence req) = false -> revisit_frequency o = None).
Proof.
  intros H.
  destruct (create_order_ok _ _ _ _ _ _ H)
    as (rf & it & st & en & dl & Hrf & _ & _ & _ & _ & Hr & Hp & _).
  exists (row_of req w rf it st en dl). cbn [row_of revisit_frequency id].
  pose proof (revisit_frequency_of_ok _ _ Hrf) as Hiff.
  repeat split; auto; try apply Hiff.
  intros Hfalse. destruct rf as [d|]; [|reflexivity].
  assert (repeat (Recurrence req) = true) by (apply Hiff; discriminate).
  congruence.
Qed.

(** C8 (as amended): the requested image type is mapped through its
    lower-cased form by the closed mapping low to low, medium to medium,
    high to spotlight, and a persisted order stores the mapped type. For any
    image type outside the mapping, [create_order] raises an unhandled
    exception that is not a ValidationError and persists nothing; the
    exception is the [KeyError] of the lower-cased type whenever the
    recurrence step before it raised nothing. *)
Theorem create_order_image_type req w :
  (forall v,
     parse_image_type (ImageType req) = Ok v <->
     (PyStr.lower (ImageType req) = "low" /\ v = "low")
     \/ (PyStr.lower (ImageType req) = "medium" /\ v = "medium")
     \/ (PyStr.lower (ImageType req) = "high" /\ v = "spotlight"))
  /\ (forall r w',
        create_order fromisoformat order_type req w = (Ok r, w') ->
        exists o, persists w w' o /\ id o = r
                  /\ parse_image_type (ImageType req) = Ok (image_type o))
  /\ (~ In (PyStr.lower (ImageType req)) ["low"; "medium"; "high"] ->
      exists e,
        create_order fromisoformat order_type req w = (Raise e, w)
        /\ is_ValidationError e = false
        /\ (forall rf, revisit_frequency_of (Recurrence req) = Ok rf ->
            e = KeyError (PyStr.lower (ImageType req)))).
Proof.
  assert (Hmap : forall v,
     parse_image_type (ImageType req) = Ok v <->
     (PyStr.lower (ImageType req) = "low" /\ v = "low")
     \/ (PyStr.lower (ImageType req) = "medium" /\ v = "medium")
     \/ (PyStr.lower (ImageType req) = "high" /\ v = "spotlight")).
  { intros v. unfold parse_image_type, type_mappings.
    cbn [PyStr.dict_get].
    destruct (String.eqb_spec "low" (PyStr.lower (ImageType req))) as [E1|N1].
    { split; [intros [= <-]; auto|].
      intros [[_ ->] | [[E _] | [E _]]]; [reflexivity | | ];
        rewrite E in E1; discriminate. }
    destruct (String.eqb_spec "medium" (PyStr.lower (ImageType req)))
      as [E2|N2].
    { split; [intros [= <-]; auto|].
      intros [[E _] | [[_ ->] | [E _]]]; [ | reflexivity | ];
        rewrite E in E2; discriminate. }
    destruct (String.eqb_spec "high" (PyStr.lower (ImageType req)))
      as [E3|N3].
    { split; [intros [= <-]; auto|].
      intros [[E _] | [[E _] | [_ ->]]]; [ | | reflexivity];
        rewrite E in E3; discriminate. }
    split; [discriminate|].
    intros [[E _] | [[E _] | [E _]]]; congruence. }
  split; [exact Hmap|]. split.
  - intros r w' H.
    destruct (create_order_ok _ _ _ _ _ _ H)
      as (rf & it & st & en & dl & _ & Hit & _ & _ & _ & Hr & Hp & _).
    exists (row_of req w rf it st en dl). auto.
  - intros Hout.
    assert (Hkey : parse_image_type (ImageType req)
                   = Raise (KeyError (PyStr.lower (ImageType req)))).
    { destruct (parse_image_type (ImageType req)) as [v|e] eqn:E.
      - elim Hout. cbn.
        destruct (proj1 (Hmap v) eq_refl) as [[E' _] | [[E' _] | [E' _]]];
          rewrite E'; auto.
      - revert E. unfold parse_image_type.
        destruct (PyStr.dict_get _ _); [discriminate | congruence]. }
    destruct (revisit_frequency_of (Recurrence req)) as [rf|e] eqn:Erf.
    + exists (KeyError (PyStr.lower (ImageType req))).
      split; [now apply create_order_image_type_raise with rf|].
      split; [reflexivity | auto].
    + exists e. split; [now apply create_order_recurrence_raise|].
      split; [|discriminate].
      destruct (revisit_frequency_of_raise _ _ Erf) as [-> | [-> | ->]];
        reflexivity.
Qed.

End RouteClaims.

(** The lookup by an integer key: for every key that no order in the store
    has, [get_image_order] fails with the 404 [HTTPException] (NotFound) and
    changes nothing; for every key that an order has, it returns an order of
    the store with that key, which is that order when keys are unique. *)
Theorem get_image_order_found_or_404 {float datetime : Type} i
    (w : @World float datetime) :
  is_NotFound order_not_found = true
  /\ ((forall o, In o (image_order_table w) -> id o <> Some i) ->
      get_image_order i w = (Raise order_not_found, w))
  /\ (forall o, In o (image_order_table w) -> id o = Some i ->
      exists o',
        get_image_order i w = (Ok o', w)
        /\ In o' (image_order_table w) /\ id o' = Some i
        /\ (NoDup (map id (image_order_table w)) -> o' = o)).
Proof.
  assert (Hid : forall o : @ImageOrder float datetime,
             id_is i o = true <-> id o = Some i).
  { intros o. unfold id_is. destruct (id o) as [j|].
    - rewrite Z.eqb_eq. split; congruence.
    - split; discriminate. }
  unfold get_image_order, bind, query_ImageOrder, Query.first, Query.all,
    Query.limit, Query.filter, Query.query; cbn.
  split; [reflexivity|]. split.
  - intros Hnone.
    destruct (List.filter (id_is i) (image_order_table w)) as [|o l] eqn:E;
      [reflexivity|].
    assert (Hin : In o (List.filter (id_is i) (image_order_table w)))
      by (rewrite E; now left).
    apply filter_In in Hin. destruct Hin as [Hin Hb].
    apply Hid in Hb. now elim (Hnone o Hin).
  - intros o Hin Hio.
    destruct (List.filter (id_is i) (image_order_table w)) as [|o' l] eqn:E.
    + assert (Hf : In o (List.filter (id_is i) (image_order_table w)))
        by (apply filter_In; split; [assumption | now apply Hid]).
      rewrite E in Hf. destruct Hf.
    + assert (Hf : In o' (List.filter (id_is i) (image_order_table w)))
        by (rewrite E; now left).
      apply filter_In in Hf. destruct Hf as [Hin' Hb]. apply Hid in Hb.
      exists o'. repeat split; auto.
      intros Hnd. clear E l.
      revert Hin Hin' Hnd.
      induction (image_order_table w) as [|x t IH]; cbn; [tauto|].
      intros [-> | Ho] [-> | Ho'] Hnd; inversion Hnd as [|? ? Hx Ht]; subst.
      * reflexivity.
      * elim Hx. rewrite Hio, <- Hb. now apply in_map.
      * elim Hx. rewrite Hb, <- Hio. now apply in_map.
      * auto.
Qed.

(** C5 (the failing input): the route receives its id as text, not as an
    integer. For every text that the database does not read as an integer
    key, for which no order exists, [GET /orders/{id}] raises an unhandled
    [DataError], answered with status 500 and not with the 404 of NotFound;
    nothing is changed. A text read as the key [i] is looked up as
    [get_image_order] looks up [i]. *)
Theorem get_image_order_by_path_rejected_text {float datetime : Type}
    (key_of_text : string -> option Z) path_id
    (w : @World float datetime) :
  (key_of_text path_id = None ->
   (forall o i, In o (image_order_table w) -> id o = Some i ->
                key_of_text path_id <> Some i)
   /\ get_image_order_by_path key_of_text path_id w = (Raise DataError, w))
  /\ (forall i,
        key_of_text path_id = Some i ->
        get_image_order_by_path key_of_text path_id w = get_image_order i w)
  /\ http_status DataError = 500
  /\ is_NotFound DataError = false.
Proof.
  unfold get_image_order_by_path. split; [|split; [|split; reflexivity]].
  - intros ->. split; [discriminate | reflexivity].
  - intros i ->. reflexivity.
Qed.

(* ================================================================== *)
(** ** Facts about GROUP BY *)

Section GroupByFacts.
Context {K : Type} (eqb : K -> K -> bool).
Hypothesis eqb_spec : forall a b, reflect (a = b) (eqb a b).

Lemma bump_keys k0 (groups : list (K * nat)) k :
  In k (map fst (bump eqb k0 groups)) <-> k = k0 \/ In k (map fst groups).
Proof.
  induction groups as [|[k' n] rest IH]; cbn.
  - intuition.
  - destruct (eqb_spec k' k0) as [->|Hne]; cbn; [intuition congruence|].
    rewrite IH. tauto.
Qed.

Lemma bump_NoDup k0 (groups : list (K * nat)) :
  NoDup (map fst groups) -> NoDup (map fst (bump eqb k0 groups)).
Proof.
  induction groups as [|[k' n] rest IH]; cbn; intros Hnd.
  - constructor; [intros [] | constructor].
  - inversion Hnd as [|? ? Hnotin Hrest]; subst.
    destruct (eqb_spec k' k0) as [->|Hne]; cbn.
    + now constructor.
    + constructor; [|auto]. rewrite bump_keys. intros [-> | Hin]; tauto.
Qed.

Lemma bump_tally k0 (groups : list (K * nat)) k :
  tally_of eqb k (bump eqb k0 groups)
  = (tally_of eqb k groups + if eqb k k0 then 1 else 0)%nat.
Proof.
  induction groups as [|[k' n] rest IH]; cbn.
  - destruct (eqb_spec k0 k), (eqb_spec k k0); congruence || reflexivity.
  - destruct (eqb_spec k' k0) as [E|Hne]; cbn.
    + destruct (eqb_spec k' k), (eqb_spec k k0); try congruence; lia.
    + destruct (eqb_spec k' k) as [E'|Hne'].
      * destruct (eqb_spec k k0); [congruence | lia].
      * apply IH.
Qed.

Lemma fold_bump_keys keys (groups : list (K * nat)) k :
  In k (map fst (fold_left (fun g x => bump eqb x g) keys groups))
  <-> In k keys \/ In k (map fst groups).
Proof.
  revert groups; induction keys as [|x keys IH]; intros groups; cbn.
  - tauto.
  - rewrite IH, bump_keys. intuition congruence.
Qed.

Lemma fold_bump_NoDup keys (groups : list (K * nat)) :
  NoDup (map fst groups) ->
  NoDup (map fst (fold_left (fun g x => bump eqb x g) keys groups)).
Proof.
  revert groups; induction keys as [|x keys IH]; intros groups Hnd; cbn.
  - assumption.
  - apply IH, bump_NoDup, Hnd.
Qed.

Lemma fold_bump_tally keys (groups : list (K * nat)) k :
  tally_of eqb k (fold_left (fun g x => bump eqb x g) keys groups)
  = (tally_of eqb k groups + occurrences eqb k keys)%nat.
Proof.
  revert groups; induction keys as [|x keys IH]; intros groups;
    cbn [fold_left].
  - unfold occurrences; cbn. lia.
  - rewrite IH, bump_tally. unfold occurrences. cbn [List.filter].
    destruct (eqb k x); cbn [List.length]; lia.
Qed.

Lemma tally_of_In (groups : list (K * nat)) k n :
  NoDup (map fst groups) -> In (k, n) groups -> tally_of eqb k groups = n.
Proof.
  induction groups as [|[k' m] rest IH]; cbn; [tauto|].
  intros Hnd [[= -> ->] | Hin]; inversion Hnd as [|? ? Hnotin Hrest]; subst.
  - now destruct (eqb_spec k k).
  - destruct (eqb_spec k' k) as [->|Hne]; [|auto].
    elim Hnotin. change k with (fst (k, n)). now apply in_map.
Qed.

Lemma In_tally_of (groups : list (K * nat)) k :
  In k (map fst groups) -> In (k, tally_of eqb k groups) groups.
Proof.
  induction groups as [|[k' m] rest IH]; cbn; [tauto|].
  intros Hin. destruct (eqb_spec k' k) as [->|Hne]; [now left|].
  right. apply IH. destruct Hin; [congruence | assumption].
Qed.

Lemma group_count_NoDup keys : NoDup (map fst (group_count eqb keys)).
Proof. apply fold_bump_NoDup. constructor. Qed.

Lemma group_count_keys keys k :
  In k (map fst (group_count eqb keys)) <-> In k keys.
Proof. unfold group_count. rewrite fold_bump_keys. cbn. tauto. Qed.

(** The groups are the distinct keys, each with its number of rows. *)
Lemma group_count_spec keys k n :
  In (k, n) (group_count eqb keys)
  <-> In k keys /\ n = occurrences eqb k keys.
Proof.
  split.
  - intros Hin. split.
    + apply group_count_keys. change k with (fst (k, n)). now apply in_map.
    + apply tally_of_In in Hin; [|apply group_count_NoDup].
      rewrite <- Hin. unfold group_count. now rewrite fold_bump_tally.
  - intros [Hin ->].
    apply group_count_keys, In_tally_of in Hin.
    unfold group_count in Hin at 1. now rewrite fold_bump_tally in Hin.
Qed.

Lemma group_count_tally keys k n :
  In (k, n) (group_count eqb keys) -> n = occurrences eqb k keys.
Proof. intros H. now apply group_count_spec in H. Qed.

(** There are as many groups as distinct keys. *)
Lemma group_count_length (eq_dec : forall a b : K, {a = b} + {a <> b}) keys :
  List.length (group_count eqb keys) = List.length (nodup eq_dec keys).
Proof.
  rewrite <- (length_map fst).
  apply Permutation_length, NoDup_Permutation.
  - apply group_count_NoDup.
  - apply NoDup_nodup.
  - intros k. now rewrite group_count_keys, nodup_In.
Qed.

End GroupByFacts.

(* ================================================================== *)
(** ** The report: counts by status, reasons, contacts *)

Lemma reason_eqb_spec a b : reflect (a = b) (reason_eqb a b).
Proof.
  destruct a as [x|], b as [y|]; cbn; try (constructor; congruence).
  destruct (String.eqb_spec x y); constructor; congruence.
Qed.

Lemma occurrences_status requests s :
  occurrences String.eqb s (map status requests) = count_in_status requests s.
Proof.
  unfold occurrences, count_in_status.
  induction requests as [|r rest IH]; cbn; [reflexivity|].
  rewrite (String.eqb_sym s (status r)).
  destruct (String.eqb (status r) s); cbn; now rewrite IH.
Qed.

Lemma flat_map_fst {A B C : Type} (f : A * B -> list C) (g : A -> list C)
    (l : list (A * B)) :
  (forall x, In x l -> f x = g (fst x)) ->
  flat_map f l = flat_map g (map fst l).
Proof.
  induction l as [|x l IH]; cbn; intros H; [reflexivity|].
  rewrite (H x), IH; auto.
Qed.

Lemma breakdown_by_reason_length requests s :
  List.length (breakdown_by_reason requests s) = distinct_reasons requests s.
Proof.
  unfold breakdown_by_reason, distinct_reasons.
  now rewrite (group_count_length reason_eqb reason_eqb_spec reason_eq_dec).
Qed.

Lemma nodup_all_equal {A : Type} (dec : forall a b : A, {a = b} + {a <> b})
    (l : list A) :
  (forall x y, In x l -> In y l -> x = y) ->
  (List.length (nodup dec l) <= 1)%nat.
Proof.
  destruct l as [|a l]; intros H; [cbn; lia|].
  change 1%nat with (List.length [a]).
  apply NoDup_incl_length; [apply NoDup_nodup|].
  intros x Hx. apply nodup_In in Hx. left. apply H; [now left | assumption].
Qed.



Lemma request_count_by_status_spec requests s n :
  In (s, n) (request_count_by_status requests)
  <-> In s (map status requests) /\ n = count_in_status requests s.
Proof.
  unfold request_count_by_status.
  rewrite (group_count_spec String.eqb String.eqb_spec).
  now rewrite occurrences_status.
Qed.

Lemma status_line_printed requests indent s :
  In s (map status requests) ->
  In (status_line indent s (count_in_status requests s))
     (print_request_breakdown requests indent).
Proof.
  intros Hs. unfold print_request_breakdown. apply in_flat_map.
  exists (s, count_in_status requests s). split; [|now left].
  apply request_count_by_status_spec. auto.
Qed.

Lemma to_uint_not_Nil n : Nat.to_uint n <> Decimal.Nil.
Proof.
  rewrite <- (DecimalNat.Unsigned.of_to n) at 1.
  rewrite DecimalNat.Unsigned.to_of. apply DecimalFacts.unorm_nonnil.
Qed.

Lemma append_cancel_l (s a b : string) : s ++ a = s ++ b -> a = b.
Proof.
  induction s as [|c s IH]; cbn; [auto|]. intros [= H]. auto.
Qed.

(** Different counts are printed differently. *)
Lemma of_nat_inj n m : PyStr.of_nat n = PyStr.of_nat m -> n = m.
Proof.
  unfold PyStr.of_nat. intros H.
  apply DecimalNat.Unsigned.to_uint_inj.
  apply (f_equal NilZero.uint_of_string) in H.
  rewrite !NilZero.usu in H by apply to_uint_not_Nil.
  congruence.
Qed.

(** C6: for every database state, the breakdown has one group per status
    that occurs, each with the number of requests in that status, and prints
    for each of them, once, the line made of the indent, the capitalized
    status, the text " requests: " and that number in decimal (followed by
    its reason lines); the report prints these lines, with an indent of
    three spaces, for the requests of the database. Different numbers give
    different lines. *)
Theorem print_request_breakdown_counts (db : Database) requests indent :
  NoDup (map fst (request_count_by_status requests))
  /\ (forall s n,
        In (s, n) (request_count_by_status requests)
        <-> In s (map status requests) /\ n = count_in_status requests s)
  /\ print_request_breakdown requests indent
     = flat_map
         (fun s =>
            (indent ++ PyStr.capitalize s ++ " requests: "
               ++ PyStr.of_nat (count_in_status requests s))
            :: reason_lines requests indent s)
         (map fst (request_count_by_status requests))
  /\ (forall s,
        In s (map status requests) ->
        In (indent ++ PyStr.capitalize s ++ " requests: "
              ++ PyStr.of_nat (count_in_status requests s))
           (print_request_breakdown requests indent))
  /\ (forall s,
        In s (map status (schedule_request db)) ->
        In ("   " ++ PyStr.capitalize s ++ " requests: "
              ++ PyStr.of_nat (count_in_status (schedule_request db) s))
           (create_report db))
  /\ (forall s n m,
        indent ++ PyStr.capitalize s ++ " requests: " ++ PyStr.of_nat n
        = indent ++ PyStr.capitalize s ++ " requests: " ++ PyStr.of_nat m ->
        n = m).
Proof.
  split; [apply (group_count_NoDup String.eqb String.eqb_spec)|].
  split; [apply request_count_by_status_spec|]. split; [|split; [|split]].
  - unfold print_request_breakdown. apply flat_map_fst.
    intros [s n] Hin. apply request_count_by_status_spec in Hin.
    destruct Hin as [_ ->]. reflexivity.
  - intros s Hs. exact (status_line_printed requests indent s Hs).
  - intros s Hs. unfold create_report.
    apply in_or_app; right. apply in_or_app; left.
    exact (status_line_printed (schedule_request db) "   " s Hs).
  - intros s n m H. apply of_nat_inj.
    do 3 apply append_cancel_l in H. exact H.
Qed.

(** C9: the reason lines of a status are printed exactly when the requests in
    that status have at least two distinct status messages (an absent message
    being one of them), one line per distinct message; when all of them share
    one message, or all have none, no reason line is printed. *)
Theorem reason_lines_need_two_reasons requests indent s :
  (reason_lines requests indent s <> []
   <-> (2 <= distinct_reasons requests s)%nat)
  /\ ((2 <= distinct_reasons requests s)%nat ->
      List.length (reason_lines requests indent s)
      = distinct_reasons requests s)
  /\ ((forall r r',
         In r requests -> In r' requests -> status r = s -> status r' = s ->
         status_message r = status_message r') ->
      reason_lines requests indent s = []).
Proof.
  pose proof (breakdown_by_reason_length requests s) as Hlen.
  unfold reason_lines.
  destruct (Nat.ltb_spec 1 (List.length (breakdown_by_reason requests s)))
    as [Hgt|Hle].
  - split; [|split].
    + split; [intros _; lia|]. intros _ Hnil.
      apply (f_equal (@List.length string)) in Hnil.
      rewrite length_map in Hnil. cbn [List.length] in Hnil. lia.
    + intros _. now rewrite length_map.
    + intros Hsame. exfalso.
      assert (distinct_reasons requests s <= 1)%nat; [|lia].
      apply nodup_all_equal. intros x y Hx Hy.
      apply in_map_iff in Hx. destruct Hx as (r & <- & Hr).
      apply in_map_iff in Hy. destruct Hy as (r' & <- & Hr').
      apply filter_In in Hr. destruct Hr as [Hr Er].
      apply filter_In in Hr'. destruct Hr' as [Hr' Er'].
      apply String.eqb_eq in Er, Er'. now apply Hsame.
  - split; [|split].
    + split; [congruence | lia].
    + lia.
    + reflexivity.
Qed.





(* ================================================================== *)
(** ** Runs on concrete data *)

(** C3, at a failing input: with three stored orders, [page] 1, [per_page] 1
    and [all] false, GET /orders answers with all three orders. The claim has
    at most [per_page] of them, the first page; the paginated query is built
    and dropped, and the unpaginated one is run. *)
Theorem get_all_image_orders_ignores_paging :
  exists answer,
    get_all_image_orders 1 1 false Sample.three_orders
    = (Ok answer, Sample.three_orders)
    /\ answer = image_order_table Sample.three_orders
    /\ List.length answer = 3%nat
    /\ answer
       <> firstn (Z.to_nat 1)
            (skipn (Z.to_nat ((1 - 1) * 1))
               (image_order_table Sample.three_orders)).
Proof.
  exists (image_order_table Sample.three_orders).
  repeat split; discriminate.
Qed.

Lemma create_order_number_of_visits_witness :
  Sample.run Sample.daily_high
  = (Ok (Some 1), Sample.after Sample.daily_high)
  /\ exists o,
       persists Sample.empty (Sample.after Sample.daily_high) o
       /\ number_of_visits o = 3
       /\ start_time o = Sample.T0 /\ end_time o = Sample.T1.
Proof.
  split; [reflexivity|].
  destruct (create_order_number_of_visits Sample.fromisoformat
              Sample.order_type Sample.daily_high Sample.empty _ _ eq_refl)
    as (o & Hp & _ & Hn & _ & Hs & He).
  change (Some Sample.T0 = Some (start_time o)) in Hs.
  change (Some Sample.T1 = Some (end_time o)) in He.
  exists o. repeat split; [exact Hp | exact Hn | | ]; congruence.
Defined.

(** An order that is not repeated is stored with three visits when its
    revisit count is two. *)
Lemma single_order_stores_three_visits :
  repeat (Recurrence Sample.single_high) = false
  /\ exists o,
       Sample.run Sample.single_high
       = (Ok (Some 1), Sample.after Sample.single_high)
       /\ image_order_table (Sample.after Sample.single_high) = [o]
       /\ number_of_visits o = 3
       /\ number_of_visits o <> 1.
Proof.
  split; [reflexivity|].
  eexists. split; [reflexivity|]. split; [reflexivity|].
  split; [reflexivity | discriminate].
Qed.

Lemma create_order_malformed_recurrence_witness :
  repeat (Recurrence Sample.fortnightly) = true
  /\ Timedelta.is_keyword (PyStr.lower "fortnights") = false
  /\ exists e,
       Sample.run Sample.fortnightly = (Raise e, Sample.empty)
       /\ (e = TypeError \/ e = AttributeError)
       /\ is_ValidationError e = false.
Proof.
  split; [reflexivity|]. split; [reflexivity|].
  apply (create_order_malformed_recurrence Sample.fromisoformat
           Sample.order_type Sample.fortnightly Sample.empty).
  - reflexivity.
  - right; right. exists "fortnights". split; reflexivity.
Defined.

(** A repeated order whose unit is seconds, which is none of minutes, hours,
    days and weeks, is accepted and persisted; one whose unit [timedelta]
    does not have fails with a [TypeError], which is no ValidationError. *)
Lemma seconds_accepted_and_TypeError_raised :
  (repeat (Recurrence Sample.every_30_seconds) = true
   /\ RevisitFrequencyUnits (Recurrence Sample.every_30_seconds)
      = Some "seconds"
   /\ ~ In "seconds" ["minutes"; "hours"; "days"; "weeks"]
   /\ exists o,
        Sample.run Sample.every_30_seconds
        = (Ok (Some 1), Sample.after Sample.every_30_seconds)
        /\ image_order_table (Sample.after Sample.every_30_seconds) = [o])
  /\ (repeat (Recurrence Sample.fortnightly) = true
      /\ Sample.run Sample.fortnightly = (Raise TypeError, Sample.empty)
      /\ is_ValidationError TypeError = false).
Proof.
  split.
  - split; [reflexivity|]. split; [reflexivity|]. split.
    + cbn. intros [H | [H | [H | [H | []]]]]; discriminate.
    + eexists. split; reflexivity.
  - repeat split.
Qed.

Lemma create_order_publishes_witness :
  Sample.run Sample.daily_high
  = (Ok (Some 1), Sample.after Sample.daily_high)
  /\ exists o,
       persists Sample.empty (Sample.after Sample.daily_high) o
       /\ journal (Sample.after Sample.daily_high)
          = [ Committed [Some 1];
              Published ("order." ++ Sample.order_type o ++ ".created")
                (Some 1) ].
Proof.
  split; [reflexivity|].
  destruct (create_order_publishes Sample.fromisoformat Sample.order_type
              Sample.daily_high Sample.empty _ _ eq_refl)
    as (o & i & Hp & _ & Hi & Hj).
  exists o. split; [exact Hp|].
  injection Hi as <-. exact Hj.
Defined.

(** Under a mapping that gives every image order the order type imaging, an
    order of image type spotlight (requested as high) is announced on
    [order.imaging.created], not on a topic named after its image type. *)
Lemma topic_is_not_named_after_image_type :
  exists o,
    Sample.run Sample.daily_high
    = (Ok (Some 1), Sample.after Sample.daily_high)
    /\ image_order_table (Sample.after Sample.daily_high) = [o]
    /\ image_type o = "spotlight"
    /\ journal (Sample.after Sample.daily_high)
       = [ Committed [Some 1];
           Published "order.imaging.created" (Some 1) ]
    /\ "order.imaging.created" <> "order." ++ image_type o ++ ".created"
    /\ "order.imaging.created"
       <> "order." ++ ImageType Sample.daily_high ++ ".created".
Proof.
  eexists. split; [reflexivity|]. split; [reflexivity|].
  repeat split; discriminate.
Qed.

Lemma get_image_order_found_or_404_witness :
  get_image_order 2 Sample.three_orders
  = (Ok (Sample.order 2 "medium" 1 None), Sample.three_orders)
  /\ get_image_order 5 Sample.three_orders
     = (Raise order_not_found, Sample.three_orders)
  /\ http_status order_not_found = 404.
Proof.
  destruct (get_image_order_found_or_404 2 Sample.three_orders)
    as (_ & _ & Hfound).
  destruct (get_image_order_found_or_404 5 Sample.three_orders)
    as (_ & Hnone & _).
  split; [|split; [|reflexivity]].
  - destruct (Hfound (Sample.order 2 "medium" 1 None)) as (o' & Hget & _ & _ & Huniq).
    + cbn. auto.
    + reflexivity.
    + rewrite Hget. f_equal. f_equal. apply Huniq.
      cbn. repeat constructor; cbn; intuition discriminate.
  - apply Hnone. cbn. intros o [<- | [<- | [<- | []]]]; discriminate.
Defined.

Lemma get_image_order_by_path_rejected_text_witness :
  Cases.key_of_text "abc" = None
  /\ get_image_order_by_path Cases.key_of_text "abc" Sample.three_orders
     = (Raise DataError, Sample.three_orders)
  /\ http_status DataError <> 404
  /\ get_image_order_by_path Cases.key_of_text "2" Sample.three_orders
     = (Ok (Sample.order 2 "medium" 1 None), Sample.three_orders).
Proof.
  destruct (get_image_order_by_path_rejected_text Cases.key_of_text "abc"
              Sample.three_orders) as (Hrej & _ & Hstatus & _).
  destruct (get_image_order_by_path_rejected_text Cases.key_of_text "2"
              Sample.three_orders) as (_ & Hkey & _).
  split; [reflexivity|]. split; [apply Hrej; reflexivity|].
  split; [rewrite Hstatus; discriminate|].
  rewrite (Hkey 2 eq_refl). reflexivity.
Defined.

Lemma create_order_revisit_frequency_witness :
  Sample.run Sample.daily_high
  = (Ok (Some 1), Sample.after Sample.daily_high)
  /\ repeat (Recurrence Sample.daily_high) = true
  /\ exists o,
       persists Sample.empty (Sample.after Sample.daily_high) o
       /\ revisit_frequency o <> None.
Proof.
  split; [reflexivity|]. split; [reflexivity|].
  destruct (create_order_revisit_frequency Sample.fromisoformat
              Sample.order_type Sample.daily_high Sample.empty _ _ eq_refl)
    as (o & Hp & _ & Hiff & _).
  exists o. split; [exact Hp|]. apply Hiff. reflexivity.
Defined.

Lemma create_order_image_type_witness :
  parse_image_type "HIGH" = Ok "spotlight"
  /\ exists e,
       Sample.run Sample.ultra_daily = (Raise e, Sample.empty)
       /\ is_ValidationError e = false
       /\ e = KeyError "ultra".
Proof.
  split; [reflexivity|].
  destruct (create_order_image_type Sample.fromisoformat Sample.order_type
              Sample.ultra_daily Sample.empty) as (_ & _ & Hout).
  destruct Hout as (e & Hrun & Hval & Hkey).
  - cbn. intros [H | [H | [H | []]]]; discriminate.
  - exists e. split; [exact Hrun|]. split; [exact Hval|].
    exact (Hkey _ eq_refl).
Defined.

(** An image type outside the mapping, sent with a unit that [timedelta]
    does not have: the [TypeError] of the recurrence step is raised, and no
    [KeyError]. *)
Lemma unknown_type_after_bad_unit_raises_TypeError :
  ~ In (PyStr.lower (ImageType Sample.ultra_fortnightly))
      ["low"; "medium"; "high"]
  /\ Sample.run Sample.ultra_fortnightly = (Raise TypeError, Sample.empty)
  /\ TypeError <> KeyError (PyStr.lower (ImageType Sample.ultra_fortnightly)).
Proof.
  split; [|split; [reflexivity | discriminate]].
  cbn. intros [H | [H | [H | []]]]; discriminate.
Qed.

Lemma print_request_breakdown_counts_witness :
  request_count_by_status Sample.six_requests
  = [ ("pending", 2%nat); ("scheduled", 3%nat); ("rejected", 1%nat) ]
  /\ In "   Scheduled requests: 3"
       (print_request_breakdown Sample.six_requests "   ").
Proof.
  split; [reflexivity|].
  destruct (print_request_breakdown_counts Sample.report_db
              Sample.six_requests "   ") as (_ & _ & _ & Hline & _).
  apply (Hline "scheduled"). cbn. auto.
Defined.

Lemma reason_lines_need_two_reasons_witness :
  reason_lines Sample.six_requests "   " "scheduled"
  = [ "     2: GS-3 pass #1102"; "     1: GS-1 pass #7" ]
  /\ reason_lines Sample.six_requests "   " "scheduled" <> []
  /\ reason_lines Sample.six_requests "   " "pending" = [].
Proof.
  destruct (reason_lines_need_two_reasons Sample.six_requests "   "
              "scheduled") as (Htwo & _ & _).
  destruct (reason_lines_need_two_reasons Sample.six_requests "   "
              "pending") as (_ & _ & Hsame).
  split; [reflexivity|]. split.
  - apply Htwo. cbn. lia.
  - apply Hsame. cbn.
    intros r r' Hr Hr' Hs Hs'.
    repeat (destruct Hr as [<- | Hr]; try discriminate Hs);
      try contradiction;
      repeat (destruct Hr' as [<- | Hr']; try discriminate Hs');
      try contradiction; reflexivity.
Defined.


(* ================================================================== *)
(** ** More on the order routes: errors, keys, composition *)

Section MoreRouteFacts.
Context {float datetime : Type}.
Variable fromisoformat : string -> option datetime.
Variable order_type : @ImageOrder float datetime -> string.

Lemma insert_all_length (objs : list (@ImageOrder float datetime)) next :
  List.length (insert_all next objs) = List.length objs.
Proof.
  revert next; induction objs as [|x objs IH]; intros next; cbn; auto.
Qed.

Lemma insert_all_ids (objs : list (@ImageOrder float datetime)) next o :
  In o (insert_all next objs) ->
  exists k, id o = Some k /\ next <= k < next + Z.of_nat (List.length objs).
Proof.
  revert next; induction objs as [|x objs IH]; intros next;
    cbn [insert_all List.length In]; [tauto|].
  intros [<- | H].
  - exists next. cbn. split; [reflexivity | lia].
  - destruct (IH _ H) as (k & Hk & Hr). exists k. split; [assumption | lia].
Qed.

Lemma insert_all_NoDup (objs : list (@ImageOrder float datetime)) next :
  NoDup (map id (insert_all next objs)).
Proof.
  revert next; induction objs as [|x objs IH]; intros next; cbn; constructor.
  - intros Hin. apply in_map_iff in Hin. destruct Hin as (o & Ho & Hin).
    apply insert_all_ids in Hin. destruct Hin as (k & Hk & Hr).
    rewrite Hk in Ho. injection Ho as ->. lia.
  - apply IH.
Qed.

(** The world a successful [create_order] leaves, beyond its table. *)
Lemma create_order_ok_world req w w' r :
  create_order fromisoformat order_type req w = (Ok r, w') ->
  exists o0,
    image_order_table w'
    = (image_order_table w
       ++ insert_all (image_order_id_seq w) (session_new w ++ [o0]))%list
    /\ image_order_id_seq w'
       = image_order_id_seq w + Z.of_nat (List.length (session_new w)) + 1
    /\ session_new w' = []
    /\ exposed_schedule_requests w' = exposed_schedule_requests w.
Proof.
  unfold create_order, bind, lift, datetime_fromisoformat.
  destruct (revisit_frequency_of (Recurrence req)) as [rf|]; [|discriminate].
  destruct (parse_image_type (ImageType req)) as [it|]; [|discriminate].
  destruct (fromisoformat (ImageStartTime req)) as [st|]; [|discriminate].
  destruct (fromisoformat (ImageEndTime req)) as [en|]; [|discriminate].
  destruct (fromisoformat (DeliveryTime req)) as [dl|]; [|discriminate].
  cbn [session_add session_commit publish_message ret
       image_order_table image_order_id_seq session_new journal
       exposed_schedule_requests].
  intros H; injection H as _ Hw; subst w'. eexists.
  cbn [image_order_table image_order_id_seq session_new
       exposed_schedule_requests].
  split; [reflexivity|]. split; [|split; reflexivity].
  rewrite insert_all_length, length_app. cbn [List.length]. lia.
Qed.

Lemma parse_image_type_raise s e :
  parse_image_type s = Raise e -> e = KeyError (PyStr.lower s).
Proof.
  unfold parse_image_type. destruct (PyStr.dict_get _ _); congruence.
Qed.

Lemma get_image_order_eq i (w : @World float datetime) :
  get_image_order i w
  = match List.filter (id_is i) (image_order_table w) with
    | [] => (Raise order_not_found, w)
    | o :: _ => (Ok o, w)
    end.
Proof.
  unfold get_image_order, bind, query_ImageOrder, Query.first, Query.all,
    Query.limit, Query.filter, Query.query; cbn.
  now destruct (List.filter (id_is i) (image_order_table w)).
Qed.

Lemma filter_none {A : Type} (p : A -> bool) (l : list A) :
  (forall x, In x l -> p x = false) -> List.filter p l = [].
Proof.
  induction l as [|a l IH]; cbn; intros H; [reflexivity|].
  rewrite (H a) by now left. apply IH. intros x Hx. apply H. now right.
Qed.

Lemma id_is_true i (o : @ImageOrder float datetime) :
  id_is i o = true <-> id o = Some i.
Proof.
  unfold id_is. destruct (id o) as [j|].
  - rewrite Z.eqb_eq. split; congruence.
  - split; discriminate.
Qed.

Lemma id_is_other i j (o : @ImageOrder float datetime) :
  id o = Some j -> j <> i -> id_is i o = false.
Proof.
  intros Hj Hne. unfold id_is. rewrite Hj. now apply Z.eqb_neq.
Qed.

(** X1: every exception [create_order] raises from its own steps (the
    session and the broker are taken not to fail) is raised before the first
    effect: the world is exactly as it was, no order persisted and nothing
    published; the exception is a [TypeError], an [AttributeError], an
    [OverflowError], the [KeyError] of the lower-cased image type or a
    [ValueError], and is answered with status 500. *)
Theorem create_order_raises_cleanly req w w' e :
  create_order fromisoformat order_type req w = (Raise e, w') ->
  w' = w
  /\ (e = TypeError \/ e = AttributeError \/ e = OverflowError
      \/ e = KeyError (PyStr.lower (ImageType req)) \/ e = ValueError)
  /\ http_status e = 500.
Proof.
  intros H.
  assert (Hk : e = TypeError \/ e = AttributeError \/ e = OverflowError
               \/ e = KeyError (PyStr.lower (ImageType req))
               \/ e = ValueError).
  { revert H. unfold create_order, bind, lift, datetime_fromisoformat.
    destruct (revisit_frequency_of (Recurrence req)) as [rf|e1] eqn:E1.
    2:{ intros [= <- _].
        destruct (revisit_frequency_of_raise _ _ E1) as [-> | [-> | ->]];
          auto. }
    destruct (parse_image_type (ImageType req)) as [it|e2] eqn:E2.
    2:{ intros [= <- _]. apply parse_image_type_raise in E2. auto 6. }
    destruct (fromisoformat (ImageStartTime req)); [|intros [= <- _]; auto 6].
    destruct (fromisoformat (ImageEndTime req)); [|intros [= <- _]; auto 6].
    destruct (fromisoformat (DeliveryTime req)); [|intros [= <- _]; auto 6].
    cbn. discriminate. }
  split; [now apply create_order_raise in H|]. split; [exact Hk|].
  destruct Hk as [-> | [-> | [-> | [-> | ->]]]]; reflexivity.
Qed.

(** X2: once the recurrence and the image type are accepted, a timestamp
    that is not an ISO timestamp stops the call before the session is used:
    if [ImageStartTime], [ImageEndTime] or [DeliveryTime] does not parse,
    [create_order] raises [ValueError], answered with status 500, and
    persists and publishes nothing. *)
Theorem create_order_timestamps req w rf it :
  revisit_frequency_of (Recurrence req) = Ok rf ->
  parse_image_type (ImageType req) = Ok it ->
  (fromisoformat (ImageStartTime req) = None
   \/ fromisoformat (ImageEndTime req) = None
   \/ fromisoformat (DeliveryTime req) = None) ->
  create_order fromisoformat order_type req w = (Raise ValueError, w)
  /\ http_status ValueError = 500.
Proof.
  intros Hrf Hit Hbad. split; [|reflexivity].
  unfold create_order, bind, lift, datetime_fromisoformat.
  rewrite Hrf, Hit.
  destruct (fromisoformat (ImageStartTime req)) as [st|]; [|reflexivity].
  destruct (fromisoformat (ImageEndTime req)) as [en|]; [|reflexivity].
  destruct (fromisoformat (DeliveryTime req)) as [dl|]; [|reflexivity].
  destruct Hbad as [H | [H | H]]; discriminate.
Qed.

(** X3: in a well-formed store, the key a successful [create_order] returns
    looks up, with [get_image_order], the very order it persisted. *)
Theorem create_order_then_get req w w' i :
  well_formed w ->
  create_order fromisoformat order_type req w = (Ok (Some i), w') ->
  exists o,
    persists w w' o /\ id o = Some i
    /\ get_image_order i w' = (Ok o, w').
Proof.
  intros [_ Hbelow] H.
  destruct (create_order_ok _ _ _ _ _ _ H)
    as (rf & it & st & en & dl & _ & _ & _ & _ & _ & Hr & Hp & _).
  set (o := row_of req w rf it st en dl) in *.
  exists o. split; [exact Hp|]. split; [now symmetry|].
  assert (Hi : i = image_order_id_seq w
                   + Z.of_nat (List.length (session_new w)))
    by (cbn in Hr; congruence).
  rewrite get_image_order_eq, Hp, !filter_app.
  rewrite (filter_none (id_is i) (image_order_table w)).
  2:{ intros x Hx. destruct (Hbelow x Hx) as (j & Hj & Hlt).
      apply (id_is_other i j); [assumption | lia]. }
  rewrite (filter_none (id_is i) (insert_all _ _)).
  2:{ intros x Hx. apply insert_all_ids in Hx.
      destruct Hx as (j & Hj & Hlt).
      apply (id_is_other i j); [assumption | lia]. }
  cbn [app List.filter].
  assert (Ho : id_is i o = true) by (apply id_is_true; now symmetry).
  now rewrite Ho.
Qed.

(** X4: [create_order] keeps the store well formed, whether it succeeds or
    raises: keys stay pairwise different and below the sequence. *)
Theorem create_order_keeps_well_formed req w w' res :
  well_formed w ->
  create_order fromisoformat order_type req w = (res, w') ->
  well_formed w'.
Proof.
  intros Hwf H. destruct res as [r|e].
  2:{ apply create_order_raise in H. now subst. }
  destruct Hwf as [Hnd Hbelow].
  destruct (create_order_ok_world _ _ _ _ H) as (o0 & Ht & Hs & _ & _).
  unfold well_formed. rewrite Ht, Hs. split.
  - rewrite map_app. apply NoDup_app.
    + exact Hnd.
    + apply insert_all_NoDup.
    + intros k Hk Hk'.
      apply in_map_iff in Hk. destruct Hk as (x & <- & Hx).
      apply in_map_iff in Hk'. destruct Hk' as (y & Hy & Hin).
      destruct (Hbelow x Hx) as (j & Hj & Hlt).
      apply insert_all_ids in Hin. destruct Hin as (j' & Hj' & Hr).
      rewrite Hj, Hj' in Hy. injection Hy as ->. lia.
  - intros o Hin. apply in_app_or in Hin. destruct Hin as [Hin | Hin].
    + destruct (Hbelow o Hin) as (j & Hj & Hlt). exists j. split; [auto|lia].
    + apply insert_all_ids in Hin. destruct Hin as (j & Hj & Hr).
      rewrite length_app in Hr. cbn [List.length] in Hr.
      exists j. split; [auto|lia].
Qed.

(** X5: [create_order] never disturbs an order that is already stored: an id
    that [get_image_order] answered before the call gets the same answer
    after it, whether the call succeeded or raised. *)
Theorem create_order_keeps_lookups req w w' res i o :
  get_image_order i w = (Ok o, w) ->
  create_order fromisoformat order_type req w = (res, w') ->
  get_image_order i w' = (Ok o, w').
Proof.
  intros Hget H. destruct res as [r|e].
  2:{ apply create_order_raise in H. now subst. }
  destruct (create_order_ok_world _ _ _ _ H) as (o0 & Ht & _).
  rewrite get_image_order_eq in *. rewrite Ht, filter_app.
  destruct (List.filter (id_is i) (image_order_table w)) as [|x l];
    [discriminate|].
  cbn [app]. congruence.
Qed.

(** X6: two successful [create_order] calls in a row return different,
    increasing keys, and since the first leaves nothing pending in the
    session, the commit of the second inserts its own order and no other. *)
Theorem create_order_twice req1 req2 w w1 w2 r1 r2 :
  create_order fromisoformat order_type req1 w = (Ok r1, w1) ->
  create_order fromisoformat order_type req2 w1 = (Ok r2, w2) ->
  exists i1 i2 topic,
    r1 = Some i1 /\ r2 = Some i2 /\ i1 < i2
    /\ journal w2
       = (journal w1 ++ [Committed [Some i2]; Published topic (Some i2)])%list.
Proof.
  intros H1 H2.
  destruct (create_order_ok _ _ _ _ _ _ H1)
    as (rf & it & st & en & dl & _ & _ & _ & _ & _ & Hr1 & _ & _).
  destruct (create_order_ok_world _ _ _ _ H1) as (o0 & _ & Hs1 & Hn1 & _).
  destruct (create_order_ok _ _ _ _ _ _ H2)
    as (rf' & it' & st' & en' & dl' & _ & _ & _ & _ & _ & Hr2 & _ & Hj2).
  cbn [row_of id] in Hr1, Hr2. rewrite Hn1 in Hr2, Hj2.
  cbn [List.length insert_all map app] in Hr2, Hj2.
  eexists. eexists. eexists.
  split; [exact Hr1|]. split; [exact Hr2|]. split; [lia|].
  rewrite Hj2. rewrite Hr2. reflexivity.
Qed.

(** X7: when the repeat flag is not true, the revisit frequency and its unit
    are never read: whatever they are, absent or malformed, the call does
    what it does without them. *)
Theorem create_order_ignores_frequency_unless_repeat req w amount unit :
  repeat (Recurrence req) = false ->
  create_order fromisoformat order_type (set_frequency amount unit req) w
  = create_order fromisoformat order_type req w.
Proof.
  intros Hrep.
  unfold create_order, set_frequency, revisit_frequency_of, repeat in *.
  cbn [Recurrence Revisit NumberOfRevisits ImageType ImageStartTime
       ImageEndTime DeliveryTime Latitude Longitude Priority].
  rewrite Hrep. reflexivity.
Qed.

(** X8: a persisted repeating order stores as its revisit frequency the
    amount times the size of the unit, the unit being looked up by its
    lower-cased name among the keywords of [timedelta]; the frequency is
    within the range of a timedelta. *)
Theorem create_order_stores_frequency req w w' r :
  create_order fromisoformat order_type req w = (Ok r, w') ->
  repeat (Recurrence req) = true ->
  exists o u n size,
    persists w w' o /\ id o = r
    /\ RevisitFrequencyUnits (Recurrence req) = Some u
    /\ RevisitFrequency (Recurrence req) = Some n
    /\ PyStr.dict_get Timedelta.keywords (PyStr.lower u) = Some size
    /\ revisit_frequency o = Some (Timedelta.mk (n * size))
    /\ - Timedelta.MAX_DELTA_DAYS <= (n * size) / Timedelta.US_PER_DAY
       <= Timedelta.MAX_DELTA_DAYS.
Proof.
  intros H Hrep.
  destruct (create_order_ok _ _ _ _ _ _ H)
    as (rf & it & st & en & dl & Hrf & _ & _ & _ & _ & Hr & Hp & _).
  revert Hrf. unfold revisit_frequency_of, lower_of, Timedelta.of_keyword.
  rewrite Hrep.
  destruct (RevisitFrequencyUnits (Recurrence req)) as [u|]; [|discriminate].
  destruct (PyStr.dict_get Timedelta.keywords (PyStr.lower u)) as [size|] eqn:Ek;
    [|discriminate].
  destruct (RevisitFrequency (Recurrence req)) as [n|]; [|discriminate].
  destruct ((- Timedelta.MAX_DELTA_DAYS <=? n * size / Timedelta.US_PER_DAY)
            && (n * size / Timedelta.US_PER_DAY <=? Timedelta.MAX_DELTA_DAYS))
    eqn:Eb; [|discriminate].
  intros [= <-].
  apply andb_true_iff in Eb. destruct Eb as [E1 E2].
  apply Z.leb_le in E1, E2.
  exists (row_of req w (Some (Timedelta.mk (n * size))) it st en dl), u, n, size.
  cbn [row_of revisit_frequency]. repeat split; auto.
Qed.

(** X9: a repeating order whose frequency, counted in whole days, leaves
    the range from -999999999 to 999999999 raises [OverflowError], answered
    with status 500, and nothing is persisted. *)
Theorem create_order_frequency_overflow req w u n size :
  repeat (Recurrence req) = true ->
  RevisitFrequencyUnits (Recurrence req) = Some u ->
  RevisitFrequency (Recurrence req) = Some n ->
  PyStr.dict_get Timedelta.keywords (PyStr.lower u) = Some size ->
  ((n * size) / Timedelta.US_PER_DAY < - Timedelta.MAX_DELTA_DAYS
   \/ Timedelta.MAX_DELTA_DAYS < (n * size) / Timedelta.US_PER_DAY) ->
  create_order fromisoformat order_type req w = (Raise OverflowError, w)
  /\ http_status OverflowError = 500.
Proof.
  intros Hrep Hu Hn Hk Hout. split; [|reflexivity].
  apply create_order_recurrence_raise.
  unfold revisit_frequency_of, lower_of, Timedelta.of_keyword.
  rewrite Hrep, Hu, Hk, Hn.
  destruct ((- Timedelta.MAX_DELTA_DAYS <=? n * size / Timedelta.US_PER_DAY)
            && (n * size / Timedelta.US_PER_DAY <=? Timedelta.MAX_DELTA_DAYS))
    eqn:Eb; [|reflexivity].
  apply andb_true_iff in Eb. destruct Eb as [E1 E2].
  apply Z.leb_le in E1, E2. lia.
Qed.

End MoreRouteFacts.

(* ================================================================== *)
(** ** The list routes and letter case *)

Lemma In_firstn {A : Type} (n : nat) (l : list A) x :
  In x (firstn n l) -> In x l.
Proof.
  intros H. rewrite <- (firstn_skipn n l). apply in_or_app. now left.
Qed.

Lemma In_skipn {A : Type} (n : nat) (l : list A) x :
  In x (skipn n l) -> In x l.
Proof.
  intros H. rewrite <- (firstn_skipn n l). apply in_or_app. now right.
Qed.

Lemma lower_char_idem c :
  PyStr.lower_char (PyStr.lower_char c) = PyStr.lower_char c.
Proof.
  destruct c as [[] [] [] [] [] [] [] []]; reflexivity.
Qed.

Lemma lower_idem s : PyStr.lower (PyStr.lower s) = PyStr.lower s.
Proof.
  induction s as [|c s IH]; cbn; [reflexivity|].
  now rewrite lower_char_idem, IH.
Qed.

Section ListRoutes.
Context {float datetime : Type}.
Variable fromisoformat : string -> option datetime.
Variable order_type : @ImageOrder float datetime -> string.

Lemma first_by_id i (w : @World float datetime) :
  Query.first (Query.filter (id_is i) (Query.query (image_order_table w)))
  = List.hd_error (List.filter (id_is i) (image_order_table w)).
Proof.
  unfold Query.first, Query.all, Query.limit, Query.filter, Query.query; cbn.
  now destruct (List.filter (id_is i) (image_order_table w)).
Qed.

(** X10: both list routes check [page] and [per_page] before anything else:
    a value below 1 is answered with a validation error (status 422) and the
    store is not read, so for the requests route this wins over the 404 of
    an unknown order. *)
Theorem paging_is_checked_first i page per_page all request_types
    (w : @World float datetime) :
  page < 1 \/ per_page < 1 ->
  get_all_image_orders page per_page all w = (Raise RequestValidationError, w)
  /\ get_image_order_requests order_type i page per_page all request_types w
     = (Raise RequestValidationError, w)
  /\ http_status RequestValidationError = 422.
Proof.
  intros Hbad.
  assert (E : (page <? 1) || (per_page <? 1) = true).
  { apply orb_true_iff. destruct Hbad; [left | right]; now apply Z.ltb_lt. }
  unfold get_all_image_orders, get_image_order_requests, check_paging, bind.
  rewrite E. repeat split.
Qed.

(** X11: with valid paging, the requests route answers 404 for an id that no
    stored order has, and leaves the world as it was. *)
Theorem get_image_order_requests_unknown_order i page per_page all
    request_types (w : @World float datetime) :
  1 <= page -> 1 <= per_page ->
  (forall o, In o (image_order_table w) -> id o <> Some i) ->
  get_image_order_requests order_type i page per_page all request_types w
  = (Raise order_not_found, w)
  /\ http_status order_not_found = 404.
Proof.
  intros Hp Hq Hnone. split; [|reflexivity].
  unfold get_image_order_requests, check_paging, bind.
  destruct (page <? 1) eqn:E1; [apply Z.ltb_lt in E1; lia|].
  destruct (per_page <? 1) eqn:E2; [apply Z.ltb_lt in E2; lia|].
  cbn [orb ret query_ImageOrder]. rewrite first_by_id.
  rewrite (filter_none (id_is i) (image_order_table w)); [reflexivity|].
  intros x Hx. destruct (id_is i x) eqn:E; [|reflexivity].
  apply id_is_true in E. now elim (Hnone x Hx).
Qed.

(** X12: with valid paging, a LIMIT and an OFFSET that the database takes
    (within a bigint, when they are sent) and a stored order, the requests
    route answers with exposed requests of that order only (its id and its
    order type);
    without [all] it answers with at most [per_page] of them; with [all]
    and no type filter it answers with every exposed request of the order.
    The type filter compares the same column that is already pinned to the
    order's own type: a non-empty [request_types] that does not contain the
    order's type empties the answer. *)
Theorem get_image_order_requests_answer i page per_page all request_types o
    (w : @World float datetime) :
  1 <= page -> 1 <= per_page ->
  (all = false ->
   per_page <= BIGINT_MAX /\ (page - 1) * per_page <= BIGINT_MAX) ->
  get_image_order i w = (Ok o, w) ->
  exists rs,
    get_image_order_requests order_type i page per_page all request_types w
    = (Ok rs, w)
    /\ (forall r, In r rs ->
          In r (exposed_schedule_requests w)
          /\ request_order_id r = i
          /\ request_order_type r = order_type o)
    /\ (all = false -> (List.length rs <= Z.to_nat per_page)%nat)
    /\ (all = true -> request_types = None ->
        rs = List.filter
               (fun r => (request_order_id r =? i)
                         && String.eqb (request_order_type r) (order_type o))
               (exposed_schedule_requests w))
    /\ (forall t ts,
          request_types = Some (t :: ts) ->
          ~ In (order_type o) (t :: ts) -> rs = []).
Proof.
  intros Hp Hq _ Hget.
  rewrite get_image_order_eq in Hget.
  unfold get_image_order_requests, check_paging, bind.
  destruct (page <? 1) eqn:E1; [apply Z.ltb_lt in E1; lia|].
  destruct (per_page <? 1) eqn:E2; [apply Z.ltb_lt in E2; lia|].
  cbn [orb ret query_ImageOrder]. rewrite first_by_id.
  destruct (List.filter (id_is i) (image_order_table w)) as [|o' l];
    [discriminate|].
  injection Hget as ->. cbn [hd_error create_exposed_schedule_requests_query].
  set (mine := fun r : ScheduleRequest =>
                 (request_order_id r =? i)
                 && String.eqb (request_order_type r) (order_type o)).
  set (typed := match request_types with
                | Some (t :: ts) =>
                    List.filter
                      (fun r =>
                         existsb (String.eqb (request_order_type r)) (t :: ts))
                      (List.filter mine (exposed_schedule_requests w))
                | _ => List.filter mine (exposed_schedule_requests w)
                end).
  assert (Htyped : forall r, In r typed ->
                     In r (List.filter mine (exposed_schedule_requests w))).
  { intros r. unfold typed. destruct request_types as [[|t ts]|]; auto.
    intros H. now apply filter_In in H. }
  assert (Hmine : forall r, In r typed ->
            In r (exposed_schedule_requests w)
            /\ request_order_id r = i
            /\ request_order_type r = order_type o).
  { intros r H. apply Htyped, filter_In in H. destruct H as [Hin Hb].
    unfold mine in Hb. apply andb_true_iff in Hb. destruct Hb as [Hb1 Hb2].
    apply Z.eqb_eq in Hb1. apply String.eqb_eq in Hb2. auto. }
  assert (Hout : forall t ts, request_types = Some (t :: ts) ->
                   ~ In (order_type o) (t :: ts) -> typed = []).
  { intros t ts Ht Hnot. unfold typed. rewrite Ht.
    apply filter_none. intros r Hr.
    apply filter_In in Hr. destruct Hr as [_ Hb].
    unfold mine in Hb. apply andb_true_iff in Hb. destruct Hb as [_ Hb2].
    apply String.eqb_eq in Hb2.
    destruct (existsb _ _) eqn:Ee; [|reflexivity].
    apply existsb_exists in Ee. destruct Ee as (x & Hx & Hxe).
    apply String.eqb_eq in Hxe. elim Hnot. congruence. }
  exists (if negb all
          then firstn (Z.to_nat per_page)
                 (skipn (Z.to_nat ((page - 1) * per_page)) typed)
          else typed).
  split.
  { unfold typed. destruct request_types as [[|t ts]|], all; reflexivity. }
  split; [|split; [|split]].
  - intros r Hr. apply Hmine.
    destruct all; cbn [negb] in Hr; [assumption|].
    now apply In_firstn, In_skipn in Hr.
  - intros ->. cbn [negb]. apply firstn_le_length.
  - intros -> ->. reflexivity.
  - intros t ts Ht Hnot. rewrite (Hout t ts Ht Hnot).
    destruct all; cbn [negb]; [reflexivity|].
    now rewrite skipn_nil, firstn_nil.
Qed.

(** X13: [create_order] reads the repeat flag, the unit and the image type
    through their lower-cased form only: a request and the same request with
    these three in lower case get the same answer and leave the same
    world. *)
Theorem create_order_ignores_letter_case req w :
  create_order fromisoformat order_type (lowercased req) w
  = create_order fromisoformat order_type req w.
Proof.
  assert (Hrf : revisit_frequency_of (Recurrence (lowercased req))
                = revisit_frequency_of (Recurrence req)).
  { unfold revisit_frequency_of, repeat, lowercased, lower_of.
    cbn [Recurrence Revisit RevisitFrequency RevisitFrequencyUnits].
    rewrite lower_idem.
    destruct (RevisitFrequencyUnits (Recurrence req)) as [u|]; cbn [option_map];
      [now rewrite lower_idem | reflexivity]. }
  assert (Hit : parse_image_type (ImageType (lowercased req))
                = parse_image_type (ImageType req)).
  { unfold parse_image_type, lowercased. cbn [ImageType].
    now rewrite lower_idem. }
  unfold create_order. rewrite Hrf, Hit. reflexivity.
Qed.

End ListRoutes.

(* ================================================================== *)
(** ** More on the report: totals, reasons, order types, satellites *)

Lemma bump_sum {K : Type} (eqb : K -> K -> bool) k (groups : list (K * nat)) :
  list_sum (map snd (bump eqb k groups)) = S (list_sum (map snd groups)).
Proof.
  unfold list_sum.
  induction groups as [|[k' n] rest IH]; cbn; [reflexivity|].
  destruct (eqb k' k); cbn; [reflexivity|]. rewrite IH. lia.
Qed.

(** The counts of the groups add up to the number of rows. *)
Lemma group_count_sum {K : Type} (eqb : K -> K -> bool) (keys : list K) :
  list_sum (map snd (group_count eqb keys)) = List.length keys.
Proof.
  unfold group_count.
  assert (H : forall groups,
             list_sum (map snd (fold_left (fun g x => bump eqb x g) keys groups))
             = (list_sum (map snd groups) + List.length keys)%nat).
  { induction keys as [|x keys IH]; intros groups; cbn [fold_left List.length].
    - lia.
    - rewrite IH, bump_sum. lia. }
  now rewrite H.
Qed.

Lemma occurrences_map {A K : Type} (eqb : K -> K -> bool)
    (eqb_sym : forall a b, eqb a b = eqb b a) (f : A -> K) k (l : list A) :
  occurrences eqb k (map f l)
  = List.length (List.filter (fun x => eqb (f x) k) l).
Proof.
  unfold occurrences. induction l as [|x l IH]; cbn; [reflexivity|].
  rewrite (eqb_sym k (f x)). destruct (eqb (f x) k); cbn; now rewrite IH.
Qed.

Lemma reason_eqb_sym a b : reason_eqb a b = reason_eqb b a.
Proof.
  destruct a, b; cbn; auto using String.eqb_sym.
Qed.

Lemma filter_filter {A : Type} (p q : A -> bool) (l : list A) :
  List.filter q (List.filter p l) = List.filter (fun x => p x && q x) l.
Proof.
  induction l as [|x l IH]; cbn; [reflexivity|].
  destruct (p x); cbn; [destruct (q x)|]; now rewrite IH.
Qed.

(** The reason groups of a status: the messages that occur in it, each with
    the number of requests that carry it. *)
Lemma breakdown_by_reason_spec requests s m n :
  In (m, n) (breakdown_by_reason requests s)
  <-> (exists r, In r requests /\ status r = s /\ status_message r = m)
      /\ n = count_with_reason requests s m.
Proof.
  unfold breakdown_by_reason, count_with_reason.
  change (Query.all (Query.filter ?p (Query.query ?l))) with (List.filter p l).
  rewrite (group_count_spec reason_eqb reason_eqb_spec).
  rewrite (occurrences_map reason_eqb reason_eqb_sym), filter_filter.
  rewrite in_map_iff. split.
  - intros [(r & Hm & Hr) Hn]. apply filter_In in Hr. destruct Hr as [Hr Hs].
    apply String.eqb_eq in Hs. split; [exists r; auto | exact Hn].
  - intros [(r & Hr & Hs & Hm) Hn]. split; [|exact Hn].
    exists r. split; [assumption|]. apply filter_In. split; [assumption|].
    now apply String.eqb_eq.
Qed.

Lemma two_groups_length {K : Type} (a b : K * nat) (l : list (K * nat)) :
  In a l -> In b l -> a <> b -> (1 < List.length l)%nat.
Proof.
  destruct l as [|x [|y l]]; cbn; try tauto; try lia.
  intros [-> | []] [-> | []] H. now elim H.
Qed.

(** X14: the counts of the breakdown add up: over the statuses to the number
    of requests, over the reasons of a status to the number of requests in
    that status, and in the report the counts by order type to the total
    request count. *)
Theorem breakdown_counts_add_up (db : Database) requests s :
  list_sum (map snd (request_count_by_status requests)) = List.length requests
  /\ list_sum (map snd (breakdown_by_reason requests s))
     = count_in_status requests s
  /\ list_sum
       (map snd
          (group_count String.eqb
             (map request_order_type (schedule_request db))))
     = Query.count (Query.query (schedule_request db)).
Proof.
  unfold request_count_by_status, breakdown_by_reason, count_in_status.
  rewrite !group_count_sum, !length_map. repeat split.
Qed.

(** X15: each reason line carries the number of requests of the status that
    have that message: the reason groups of a status are the messages that
    occur in it, each once, with that number, and when there are at least
    two of them each is printed on its line. *)
Theorem reason_lines_counts requests indent s :
  NoDup (map fst (breakdown_by_reason requests s))
  /\ (forall m n,
        In (m, n) (breakdown_by_reason requests s)
        <-> (exists r, In r requests /\ status r = s /\ status_message r = m)
            /\ n = count_with_reason requests s m)
  /\ (forall r r',
        In r requests -> In r' requests -> status r = s -> status r' = s ->
        status_message r <> status_message r' ->
        In (reason_line indent (status_message r)
              (count_with_reason requests s (status_message r)))
           (reason_lines requests indent s)).
Proof.
  split; [apply (group_count_NoDup reason_eqb reason_eqb_spec)|].
  split; [apply breakdown_by_reason_spec|].
  intros r r' Hr Hr' Hs Hs' Hne.
  assert (H1 : In (status_message r,
                   count_with_reason requests s (status_message r))
                  (breakdown_by_reason requests s))
    by (apply breakdown_by_reason_spec; split; [exists r|]; auto).
  assert (H2 : In (status_message r',
                   count_with_reason requests s (status_message r'))
                  (breakdown_by_reason requests s))
    by (apply breakdown_by_reason_spec; split; [exists r'|]; auto).
  unfold reason_lines.
  assert (Hlen : (1 <? List.length (breakdown_by_reason requests s))%nat = true).
  { apply Nat.ltb_lt. apply (two_groups_length _ _ _ H1 H2). congruence. }
  rewrite Hlen. apply in_map_iff.
  now exists (status_message r,
              count_with_reason requests s (status_message r)).
Qed.

(** X16: a request without a message and a request with an empty message,
    in the same status, fall in two reason groups, and both groups are
    printed under the label Unspecified, each with its own count. *)
Theorem unspecified_is_printed_twice requests indent s r r' :
  In r requests -> In r' requests -> status r = s -> status r' = s ->
  status_message r = None -> status_message r' = Some "" ->
  In (indent ++ "  " ++ PyStr.of_nat (count_with_reason requests s None)
        ++ ": Unspecified")
     (reason_lines requests indent s)
  /\ In (indent ++ "  "
           ++ PyStr.of_nat (count_with_reason requests s (Some ""))
           ++ ": Unspecified")
        (reason_lines requests indent s).
Proof.
  intros Hr Hr' Hs Hs' Hm Hm'.
  assert (H1 : In (None, count_with_reason requests s None)
                  (breakdown_by_reason requests s)).
  { apply breakdown_by_reason_spec. split; [exists r|]; auto. }
  assert (H2 : In (Some "", count_with_reason requests s (Some ""))
                  (breakdown_by_reason requests s)).
  { apply breakdown_by_reason_spec. split; [exists r'|]; auto. }
  unfold reason_lines.
  assert (Hlen : (1 <? List.length (breakdown_by_reason requests s))%nat = true).
  { apply Nat.ltb_lt. apply (two_groups_length _ _ _ H1 H2). discriminate. }
  rewrite Hlen. split; apply in_map_iff.
  - now exists (None, count_with_reason requests s None).
  - now exists (Some "", count_with_reason requests s (Some "")).
Qed.

(** X17: for every order type that occurs, the report prints the line of
    that type with the number of requests of the type, and under it the
    status breakdown of those requests alone. *)
Theorem create_report_by_order_type (db : Database) t :
  In t (map request_order_type (schedule_request db)) ->
  In ("Total " ++ PyStr.capitalize t ++ " request count: "
        ++ PyStr.of_nat
             (List.length (requests_of_type (schedule_request db) t)))
     (create_report db)
  /\ (forall s,
        In s (map status (requests_of_type (schedule_request db) t)) ->
        In (status_line "   " s
              (count_in_status (requests_of_type (schedule_request db) t) s))
           (create_report db)).
Proof.
  intros Ht.
  assert (Hg : In (t, List.length (requests_of_type (schedule_request db) t))
                  (group_count String.eqb
                     (map request_order_type (schedule_request db)))).
  { apply (group_count_spec String.eqb String.eqb_spec). split; [exact Ht|].
    now rewrite (occurrences_map String.eqb String.eqb_sym). }
  assert (Hnav : forall line,
             In line
               (("Total " ++ PyStr.capitalize t ++ " request count: "
                   ++ PyStr.of_nat
                        (List.length
                           (requests_of_type (schedule_request db) t)))
                :: print_request_breakdown
                     (requests_of_type (schedule_request db) t) "   ") ->
             In line (create_report db)).
  { intros line Hl. unfold create_report.
    do 3 (apply in_or_app; right). apply in_or_app; left.
    apply in_flat_map. eexists. split; [exact Hg|]. exact Hl. }
  split.
  - apply Hnav. now left.
  - intros s Hs. apply Hnav. right. now apply status_line_printed.
Qed.

(** X18: for every satellite, the report prints the satellite's line with
    the number of transmitted events whose asset is that satellite, and for
    every event type among them a line with the number of its events of that
    type; these numbers add up to the one on the satellite's line. A
    satellite without events has the line with 0 and no event-type line. *)
Theorem create_report_per_satellite (db : Database) sat :
  In sat (satellite db) ->
  let mine := events_of (transmitted_event db) (satellite_id sat) in
  In (satellite_name sat ++ ": " ++ PyStr.of_nat (List.length mine)
        ++ " events scheduled")
     (create_report db)
  /\ (forall et,
        In et (map event_type mine) ->
        In ("   " ++ et ++ " events: "
              ++ PyStr.of_nat
                   (List.length
                      (List.filter (fun e => String.eqb (event_type e) et)
                         mine)))
           (create_report db))
  /\ list_sum (map snd (group_count String.eqb (map event_type mine)))
     = List.length mine
  /\ (mine = [] -> group_count String.eqb (map event_type mine) = []).
Proof.
  intros Hsat mine.
  assert (Hnav : forall line,
             In line
               ((satellite_name sat ++ ": " ++ PyStr.of_nat (List.length mine)
                   ++ " events scheduled")
                :: map
                     (fun '(event_type, count) =>
                        "   " ++ event_type ++ " events: "
                          ++ PyStr.of_nat count)
                     (group_count String.eqb (map event_type mine))) ->
             In line (create_report db)).
  { intros line Hl. unfold create_report.
    do 5 (apply in_or_app; right). apply in_or_app; left.
    apply in_flat_map. exists sat. split; [exact Hsat|]. exact Hl. }
  split; [apply Hnav; now left|]. split; [|split].
  - intros et Het. apply Hnav. right. apply in_map_iff.
    exists (et, List.length
                  (List.filter (fun e => String.eqb (event_type e) et) mine)).
    split; [reflexivity|].
    apply (group_count_spec String.eqb String.eqb_spec). split; [exact Het|].
    now rewrite (occurrences_map String.eqb String.eqb_sym).
  - now rewrite group_count_sum, length_map.
  - intros ->. reflexivity.
Qed.

(* ================================================================== *)
(** ** More runs on concrete data *)

Lemma three_orders_well_formed : well_formed Sample.three_orders.
Proof.
  split.
  - cbn. repeat constructor; cbn; intuition discriminate.
  - cbn. intros o [<- | [<- | [<- | []]]]; eexists;
      (split; [reflexivity | lia]).
Defined.

Lemma create_order_raises_cleanly_witness :
  Sample.run Cases.bad_end = (Raise ValueError, Sample.empty)
  /\ http_status ValueError = 500.
Proof.
  split; [reflexivity|].
  destruct (create_order_raises_cleanly Sample.fromisoformat
              Sample.order_type Cases.bad_end Sample.empty Sample.empty
              ValueError eq_refl) as (_ & _ & H).
  exact H.
Defined.

Lemma create_order_timestamps_witness :
  Sample.fromisoformat (ImageEndTime Cases.bad_end) = None
  /\ Sample.run Cases.bad_end = (Raise ValueError, Sample.empty).
Proof.
  split; [reflexivity|].
  apply (create_order_timestamps Sample.fromisoformat Sample.order_type
           Cases.bad_end Sample.empty None "low" eq_refl eq_refl).
  right; left. reflexivity.
Defined.

Lemma create_order_then_get_witness :
  well_formed Sample.three_orders
  /\ exists o, id o = Some 4 /\ get_image_order 4 Cases.added
                               = (Ok o, Cases.added).
Proof.
  split; [exact three_orders_well_formed|].
  destruct (create_order_then_get Sample.fromisoformat Sample.order_type
              Sample.daily_high Sample.three_orders Cases.added 4
              three_orders_well_formed eq_refl) as (o & _ & Hid & Hget).
  exists o. split; assumption.
Defined.

Lemma create_order_keeps_well_formed_witness :
  well_formed Sample.three_orders /\ well_formed Cases.added.
Proof.
  split; [exact three_orders_well_formed|].
  apply (create_order_keeps_well_formed Sample.fromisoformat
           Sample.order_type Sample.daily_high Sample.three_orders
           Cases.added (Ok (Some 4)) three_orders_well_formed).
  reflexivity.
Defined.

Lemma create_order_keeps_lookups_witness :
  get_image_order 2 Sample.three_orders
  = (Ok (Sample.order 2 "medium" 1 None), Sample.three_orders)
  /\ get_image_order 2 Cases.added
     = (Ok (Sample.order 2 "medium" 1 None), Cases.added).
Proof.
  split; [reflexivity|].
  apply (create_order_keeps_lookups Sample.fromisoformat Sample.order_type
           Sample.daily_high Sample.three_orders Cases.added (Ok (Some 4)));
    reflexivity.
Defined.

Lemma create_order_twice_witness :
  Sample.run Sample.daily_high
  = (Ok (Some 1), Sample.after Sample.daily_high)
  /\ create_order Sample.fromisoformat Sample.order_type Sample.single_high
       (Sample.after Sample.daily_high)
     = (Ok (Some 2), Cases.second)
  /\ exists i1 i2, Some 1 = Some i1 /\ Some 2 = Some i2 /\ i1 < i2.
Proof.
  split; [reflexivity|]. split; [reflexivity|].
  destruct (create_order_twice Sample.fromisoformat Sample.order_type
              Sample.daily_high Sample.single_high Sample.empty
              (Sample.after Sample.daily_high) Cases.second
              (Some 1) (Some 2) eq_refl eq_refl)
    as (i1 & i2 & _ & H1 & H2 & Hlt & _).
  exists i1, i2. auto.
Defined.

Lemma create_order_ignores_frequency_unless_repeat_witness :
  repeat (Recurrence Sample.single_high) = false
  /\ create_order Sample.fromisoformat Sample.order_type
       (set_frequency (Some 5) (Some "fortnights") Sample.single_high)
       Sample.empty
     = Sample.run Sample.single_high.
Proof.
  split; [reflexivity|].
  apply (create_order_ignores_frequency_unless_repeat Sample.fromisoformat
           Sample.order_type Sample.single_high Sample.empty).
  reflexivity.
Defined.

Lemma create_order_stores_frequency_witness :
  Sample.run Cases.shouting = (Ok (Some 1), Sample.after Cases.shouting)
  /\ repeat (Recurrence Cases.shouting) = true
  /\ exists o,
       persists Sample.empty (Sample.after Cases.shouting) o
       /\ revisit_frequency o = Some (Timedelta.mk (2 * 604800000000)).
Proof.
  split; [reflexivity|]. split; [reflexivity|].
  destruct (create_order_stores_frequency Sample.fromisoformat
              Sample.order_type Cases.shouting Sample.empty _ _
              eq_refl eq_refl)
    as (o & u & n & size & Hp & _ & Hu & Hn & Hk & Hf & _).
  exists o. split; [exact Hp|].
  cbn in Hu, Hn. injection Hu as <-. injection Hn as <-.
  cbn in Hk. injection Hk as <-. exact Hf.
Defined.

Lemma create_order_frequency_overflow_witness :
  repeat (Recurrence Cases.too_long) = true
  /\ Sample.run Cases.too_long = (Raise OverflowError, Sample.empty).
Proof.
  split; [reflexivity|].
  apply (create_order_frequency_overflow Sample.fromisoformat
           Sample.order_type Cases.too_long Sample.empty
           "days" 1000000000 86400000000);
    try reflexivity.
  right. reflexivity.
Defined.

Lemma paging_is_checked_first_witness :
  get_all_image_orders 0 20 false Sample.three_orders
  = (Raise RequestValidationError, Sample.three_orders)
  /\ get_image_order_requests Sample.order_type 99 1 0 false None
       Sample.three_orders
     = (Raise RequestValidationError, Sample.three_orders).
Proof.
  split.
  - apply (paging_is_checked_first Sample.order_type 99 0 20 false None
             Sample.three_orders). left. lia.
  - apply (paging_is_checked_first Sample.order_type 99 1 0 false None
             Sample.three_orders). right. lia.
Defined.

Lemma get_image_order_requests_unknown_order_witness :
  get_image_order_requests Sample.order_type 9 1 20 false None
    Cases.with_requests
  = (Raise order_not_found, Cases.with_requests).
Proof.
  apply (get_image_order_requests_unknown_order Sample.order_type 9 1 20
           false None Cases.with_requests); try lia.
  cbn. intros o [<- | [<- | [<- | []]]]; discriminate.
Defined.

Lemma get_image_order_requests_answer_witness :
  get_image_order 1 Cases.with_requests
  = (Ok (Sample.order 1 "low" 1 None), Cases.with_requests)
  /\ (exists rs,
        get_image_order_requests Sample.order_type 1 2 1 false None
          Cases.with_requests = (Ok rs, Cases.with_requests)
        /\ (List.length rs <= 1)%nat)
  /\ get_image_order_requests Sample.order_type 1 1 20 true
       (Some ["maintenance"]) Cases.with_requests
     = (Ok [], Cases.with_requests).
Proof.
  split; [reflexivity|]. split.
  - destruct (get_image_order_requests_answer Sample.order_type 1 2 1 false
                None (Sample.order 1 "low" 1 None) Cases.with_requests)
      as (rs & Hrun & _ & Hlen & _);
      [lia | lia | intros _; unfold BIGINT_MAX; lia | reflexivity |].
    exists rs. split; [exact Hrun | exact (Hlen eq_refl)].
  - destruct (get_image_order_requests_answer Sample.order_type 1 1 20 true
                (Some ["maintenance"]) (Sample.order 1 "low" 1 None)
                Cases.with_requests)
      as (rs & Hrun & _ & _ & _ & Hout);
      [lia | lia | discriminate | reflexivity |].
    rewrite Hrun. rewrite (Hout "maintenance" [] eq_refl); [reflexivity|].
    cbn. intros [H | []]; discriminate.
Defined.

Lemma create_order_ignores_letter_case_witness :
  ImageType (lowercased Cases.shouting) = "medium"
  /\ create_order Sample.fromisoformat Sample.order_type
       (lowercased Cases.shouting) Sample.empty
     = Sample.run Cases.shouting.
Proof.
  split; [reflexivity|].
  apply (create_order_ignores_letter_case Sample.fromisoformat
           Sample.order_type Cases.shouting Sample.empty).
Defined.

Lemma breakdown_counts_add_up_witness :
  list_sum (map snd (request_count_by_status Sample.six_requests)) = 6%nat
  /\ list_sum (map snd (breakdown_by_reason Sample.six_requests "scheduled"))
     = 3%nat.
Proof.
  destruct (breakdown_counts_add_up Sample.report_db Sample.six_requests
              "scheduled") as (H1 & H2 & _).
  split; [exact H1 | exact H2].
Defined.

Lemma reason_lines_counts_witness :
  In "     2: GS-3 pass #1102"
     (reason_lines Sample.six_requests "   " "scheduled").
Proof.
  destruct (reason_lines_counts Sample.six_requests "   " "scheduled")
    as (_ & _ & Hline).
  apply (Hline (Sample.req 2 "scheduled" (Some "GS-3 pass #1102"))
               (Sample.req 3 "scheduled" (Some "GS-1 pass #7")));
    cbn; auto; discriminate.
Defined.

Lemma unspecified_is_printed_twice_witness :
  reason_lines Cases.mixed_requests "   " "rejected"
  = [ "     1: Unspecified"; "     1: Unspecified" ]
  /\ In "     1: Unspecified"
        (reason_lines Cases.mixed_requests "   " "rejected").
Proof.
  split; [reflexivity|].
  destruct (unspecified_is_printed_twice Cases.mixed_requests "   "
              "rejected"
              {| request_id := 1; request_order_id := 1;
                 request_order_type := "imaging"; status := "rejected";
                 status_message := None |}
              {| request_id := 2; request_order_id := 1;
                 request_order_type := "imaging"; status := "rejected";
                 status_message := Some "" |}) as [H _];
    cbn; auto.
Defined.

Lemma create_report_by_order_type_witness :
  In "Total Imaging request count: 2" (create_report Cases.report_db)
  /\ In "   Rejected requests: 2" (create_report Cases.report_db).
Proof.
  destruct (create_report_by_order_type Cases.report_db "imaging")
    as [Htotal Hstatus]; [cbn; auto|].
  split; [exact Htotal|].
  apply (Hstatus "rejected"). cbn. auto.
Defined.

Lemma create_report_per_satellite_witness :
  In "SOSO-1: 3 events scheduled" (create_report Cases.report_db)
  /\ In "   imaging events: 2" (create_report Cases.report_db)
  /\ In "SOSO-2: 0 events scheduled" (create_report Cases.report_db).
Proof.
  destruct (create_report_per_satellite Cases.report_db
              {| satellite_id := 1; satellite_name := "SOSO-1" |})
    as (Hline & Htypes & _); [cbn; auto|].
  destruct (create_report_per_satellite Cases.report_db
              {| satellite_id := 2; satellite_name := "SOSO-2" |})
    as (Hline2 & _); [cbn; auto|].
  split; [exact Hline|]. split; [|exact Hline2].
  apply (Htypes "imaging"). cbn. auto.
Defined.
